(** * Attrition Prediction API: a shallow embedding of [main.py]

    The FastAPI service of [main.py] loads a serialized predictor at import
    time and then answers five routes.  This development embeds the module
    globals, the start-up loader and every request handler, and proves the
    properties the specification states about them.

    Conventions of the embedding:
    - Python [float] is IEEE binary64, embedded as Rocq's primitive [float];
      the comparisons [>=] are [PrimFloat.leb] with the arguments swapped,
      so NaN behaves as it does in Python.
    - Python [int] is [Z]; [str] is [string]; a [dict] literal is an
      association list, in source order.
    - The predictor is an opaque object read from disk.  It is embedded as a
      record of optional attributes (a missing attribute raises
      [AttributeError], as attribute access does in Python).  A predicted
      class is an opaque scalar, of which the handlers use [int(...)] only;
      a probability row is an array of floats, on which [.tolist()] may be
      missing.
    - Every call into the predictor is recorded in a log, so that "is never
      invoked" and "is not retried" are statements about that log.
    - The [print] calls of the source write to stdout only and are left out. *)

From Stdlib Require Import ZArith List String Bool Lia.
From Stdlib Require Import Floats.
Import ListNotations.

#[local] Set Warnings "-inexact-float".
#[local] Open Scope string_scope.
#[local] Open Scope Z_scope.

(** ** Python values and exceptions *)

(** The values that occur in the feature dictionaries. *)
Inductive pyval : Type :=
| PyInt (z : Z)
| PyFloat (f : float)
| PyStr (s : string).

Definition pydict := list (string * pyval).

(** [pd.DataFrame([row])]: a list of rows, each row a dictionary. *)
Definition DataFrame := list pydict.

(** An instance of [Exception]: its class name, [str(e)] and
    [str(e.__traceback__)]. *)
Record PyExc : Type := mkExc {
  exc_class : string;
  exc_str : string;
  exc_tb : string
}.

Definition result (A : Type) : Type := (PyExc + A)%type.

(** An element of the array [predict] returns (a [numpy.int64], a float,
    a string label, ...): its [repr] and what [int(...)] does on it. *)
Record PyScalar : Type := mkScalar {
  scalar_repr : string;
  scalar_int : result Z
}.

(** ** The request and response models (pydantic classes) *)

Record EmployeeInput : Type := mkEmployeeInput {
  Age : Z;
  Gender : string;
  MaritalStatus : string;
  Department : string;
  JobRole : string;
  JobLevel : Z;
  JobSatisfaction : Z;
  MonthlyIncome : float;
  DailyRate : float;
  HourlyRate : float;
  MonthlyRate : float;
  YearsAtCompany : Z;
  YearsInCurrentRole : Z;
  YearsSinceLastPromotion : Z;
  TotalWorkingYears : Z;
  YearsWithCurrManager : Z;
  NumCompaniesWorked : Z;
  PerformanceRating : Z;
  PercentSalaryHike : float;
  TrainingTimesLastYear : Z;
  OverTime : string;
  BusinessTravel : string;
  DistanceFromHome : Z;
  WorkLifeBalance : Z;
  EnvironmentSatisfaction : Z;
  RelationshipSatisfaction : Z;
  Education : Z;
  EducationField : string;
  StockOptionLevel : Z
}.

(** [data.dict()]: the fields in declaration order. *)
Definition dict (d : EmployeeInput) : pydict :=
  [ ("Age", PyInt (Age d));
    ("Gender", PyStr (Gender d));
    ("MaritalStatus", PyStr (MaritalStatus d));
    ("Department", PyStr (Department d));
    ("JobRole", PyStr (JobRole d));
    ("JobLevel", PyInt (JobLevel d));
    ("JobSatisfaction", PyInt (JobSatisfaction d));
    ("MonthlyIncome", PyFloat (MonthlyIncome d));
    ("DailyRate", PyFloat (DailyRate d));
    ("HourlyRate", PyFloat (HourlyRate d));
    ("MonthlyRate", PyFloat (MonthlyRate d));
    ("YearsAtCompany", PyInt (YearsAtCompany d));
    ("YearsInCurrentRole", PyInt (YearsInCurrentRole d));
    ("YearsSinceLastPromotion", PyInt (YearsSinceLastPromotion d));
    ("TotalWorkingYears", PyInt (TotalWorkingYears d));
    ("YearsWithCurrManager", PyInt (YearsWithCurrManager d));
    ("NumCompaniesWorked", PyInt (NumCompaniesWorked d));
    ("PerformanceRating", PyInt (PerformanceRating d));
    ("PercentSalaryHike", PyFloat (PercentSalaryHike d));
    ("TrainingTimesLastYear", PyInt (TrainingTimesLastYear d));
    ("OverTime", PyStr (OverTime d));
    ("BusinessTravel", PyStr (BusinessTravel d));
    ("DistanceFromHome", PyInt (DistanceFromHome d));
    ("WorkLifeBalance", PyInt (WorkLifeBalance d));
    ("EnvironmentSatisfaction", PyInt (EnvironmentSatisfaction d));
    ("RelationshipSatisfaction", PyInt (RelationshipSatisfaction d));
    ("Education", PyInt (Education d));
    ("EducationField", PyStr (EducationField d));
    ("StockOptionLevel", PyInt (StockOptionLevel d)) ].

Record PredictionResponse : Type := mkPredictionResponse {
  prediction : string;
  probability : float;
  confidence : string
}.

Record HealthResponse : Type := mkHealthResponse {
  status : string;
  health_model_loaded : bool;
  message : string
}.

(** ** The predictor object and the module globals *)

(** What [joblib.load] returns: any Python object.  [predict] yields an
    array of scalars, [predict_proba] an array of rows of floats; either
    attribute may be absent.  [row_tolist_error] says what [.tolist()] does
    on a row this object returns: [None] when the row is a numpy array
    (the call returns its entries), [Some e] when the call raises [e] (a
    plain list has no such method). *)
Record PyObj : Type := mkPyObj {
  cls_name : string;
  cls_repr : string;
  predict : option (DataFrame -> result (list PyScalar));
  predict_proba : option (DataFrame -> result (list (list float)));
  row_tolist_error : option PyExc
}.

(** Python's [None]. *)
Definition py_None : PyObj :=
  {| cls_name := "NoneType";
     cls_repr := "<class 'NoneType'>";
     predict := None;
     predict_proba := None;
     row_tolist_error := None |}.

Record Globals : Type := mkGlobals {
  pipeline : PyObj;
  model_loaded : bool
}.

(** Calls into the predictor, most recent first. *)
Inductive event : Type :=
| CallPredict (df : DataFrame)
| CallPredictProba (df : DataFrame).

Record World : Type := mkWorld {
  globals : Globals;
  calls : list event
}.

Definition log (ev : event) (w : World) : World :=
  {| globals := globals w; calls := ev :: calls w |}.

(** ** A small monad for Python code: state and exceptions *)

Definition Py (A : Type) : Type := World -> result A * World.

Definition ret {A} (a : A) : Py A := fun w => (inr a, w).

Definition raise {A} (e : PyExc) : Py A := fun w => (inl e, w).

Definition bind {A B} (m : Py A) (k : A -> Py B) : Py B :=
  fun w =>
    match m w with
    | (inl e, w') => (inl e, w')
    | (inr a, w') => k a w'
    end.

(** [try: m  except Exception as e: h e] *)
Definition try_except {A} (m : Py A) (h : PyExc -> Py A) : Py A :=
  fun w =>
    match m w with
    | (inl e, w') => h e w'
    | (inr a, w') => (inr a, w')
    end.

Definition lift {A} (r : result A) : Py A := fun w => (r, w).

Definition read_global {A} (f : Globals -> A) : Py A :=
  fun w => (inr (f (globals w)), w).

Definition tell (ev : event) : Py unit := fun w => (inr tt, log ev w).

Declare Scope py_scope.
Delimit Scope py_scope with py.
Notation "x <- m ;; k" := (bind m (fun x => k))
  (at level 61, m at next level, right associativity) : py_scope.
#[local] Open Scope py_scope.

(** ** Exceptions raised by the embedded operations *)

(** The traceback text of an exception the interpreter raises stands for
    [<traceback object at 0x...>]; the address is not modelled. *)
Definition AttributeError (o : PyObj) (attr : string) : PyExc :=
  {| exc_class := "AttributeError";
     exc_str := "'" ++ cls_name o ++ "' object has no attribute '" ++ attr ++ "'";
     exc_tb := "<traceback object>" |}.

Definition IndexError : PyExc :=
  {| exc_class := "IndexError";
     exc_str := "index 0 is out of bounds for axis 0 with size 0";
     exc_tb := "<traceback object>" |}.

Definition FileNotFoundError (path : string) : PyExc :=
  {| exc_class := "FileNotFoundError";
     exc_str := "Pipeline file not found at " ++ path;
     exc_tb := "<traceback object>" |}.

(** [xs[i]] on an array. *)
Definition index {A} (xs : list A) (i : nat) : Py A :=
  match nth_error xs i with
  | Some x => ret x
  | None => raise IndexError
  end.

(** [pipeline.predict(df)]: attribute lookup, then the call. *)
Definition call_predict (df : DataFrame) : Py (list PyScalar) :=
  p <- read_global pipeline ;;
  match predict p with
  | None => raise (AttributeError p "predict")
  | Some f => _ <- tell (CallPredict df) ;; lift (f df)
  end.

(** [pipeline.predict_proba(df)]. *)
Definition call_predict_proba (df : DataFrame) : Py (list (list float)) :=
  p <- read_global pipeline ;;
  match predict_proba p with
  | None => raise (AttributeError p "predict_proba")
  | Some f => _ <- tell (CallPredictProba df) ;; lift (f df)
  end.

(** [int(x)] on a predicted class. *)
Definition int_ (x : PyScalar) : Py Z := lift (scalar_int x).

(** [row.tolist()] on a probability row of the loaded predictor. *)
Definition tolist (row : list float) : Py (list float) :=
  p <- read_global pipeline ;;
  match row_tolist_error p with
  | None => ret row
  | Some e => raise e
  end.

(** ** HTTP outcomes of a handler *)

Inductive outcome (A : Type) : Type :=
| Ok (body : A)
| HTTPException (status_code : Z) (detail : string).
Arguments Ok {A} body.
Arguments HTTPException {A} status_code detail.

Definition Handler (A : Type) : Type := World -> outcome A * World.

(** ** Loading the model at start-up *)

Definition pipeline_path : string := "xgb_attrition_pipeline.joblib".

(** The part of the operating system [load_model] looks at. *)
Record Env : Type := mkEnv {
  path_exists : string -> bool;
  joblib_load : string -> result PyObj
}.

(** [load_model()]: returns the flag and the new value of the global
    [pipeline], which is assigned only when [joblib.load] returns. *)
Definition load_model (env : Env) (pipeline0 : PyObj) : bool * PyObj :=
  let body : result PyObj :=
    if negb (path_exists env pipeline_path)
    then inl (FileNotFoundError pipeline_path)
    else joblib_load env pipeline_path in
  match body with
  | inr p => (true, p)
  | inl _ => (false, pipeline0)
  end.

(** Module initialisation: [pipeline = None; model_loaded = load_model()]. *)
Definition startup (env : Env) : World :=
  let '(ok, p) := load_model env py_None in
  {| globals := {| pipeline := p; model_loaded := ok |}; calls := [] |}.

(** ** [GET /health] *)

Definition health_check : Handler HealthResponse := fun w =>
  let loaded := model_loaded (globals w) in
  (Ok {| status := if loaded then "healthy" else "unhealthy";
         health_model_loaded := loaded;
         message := if loaded then "Model loaded successfully"
                    else "Model failed to load" |}, w).

(** ** [GET /sample-data] *)

Definition high_risk_employee : pydict :=
  [ ("Age", PyInt 25);
    ("Gender", PyStr "Male");
    ("MaritalStatus", PyStr "Single");
    ("Department", PyStr "Sales");
    ("JobRole", PyStr "Sales Representative");
    ("JobLevel", PyInt 1);
    ("JobSatisfaction", PyInt 2);
    ("MonthlyIncome", PyFloat 2000.0);
    ("DailyRate", PyFloat 100.0);
    ("HourlyRate", PyFloat 12.0);
    ("MonthlyRate", PyFloat 2000.0);
    ("YearsAtCompany", PyInt 1);
    ("YearsInCurrentRole", PyInt 1);
    ("YearsSinceLastPromotion", PyInt 1);
    ("TotalWorkingYears", PyInt 2);
    ("YearsWithCurrManager", PyInt 1);
    ("NumCompaniesWorked", PyInt 1);
    ("PerformanceRating", PyInt 2);
    ("PercentSalaryHike", PyFloat 5.0);
    ("TrainingTimesLastYear", PyInt 1);
    ("OverTime", PyStr "Yes");
    ("BusinessTravel", PyStr "Travel_Frequently");
    ("DistanceFromHome", PyInt 20);
    ("WorkLifeBalance", PyInt 2);
    ("EnvironmentSatisfaction", PyInt 2);
    ("RelationshipSatisfaction", PyInt 2);
    ("Education", PyInt 2);
    ("EducationField", PyStr "Life Sciences");
    ("StockOptionLevel", PyInt 0) ].

Definition low_risk_employee : pydict :=
  [ ("Age", PyInt 45);
    ("Gender", PyStr "Female");
    ("MaritalStatus", PyStr "Married");
    ("Department", PyStr "Research & Development");
    ("JobRole", PyStr "Research Scientist");
    ("JobLevel", PyInt 4);
    ("JobSatisfaction", PyInt 4);
    ("MonthlyIncome", PyFloat 8000.0);
    ("DailyRate", PyFloat 400.0);
    ("HourlyRate", PyFloat 50.0);
    ("MonthlyRate", PyFloat 8000.0);
    ("YearsAtCompany", PyInt 10);
    ("YearsInCurrentRole", PyInt 5);
    ("YearsSinceLastPromotion", PyInt 2);
    ("TotalWorkingYears", PyInt 15);
    ("YearsWithCurrManager", PyInt 3);
    ("NumCompaniesWorked", PyInt 2);
    ("PerformanceRating", PyInt 4);
    ("PercentSalaryHike", PyFloat 15.0);
    ("TrainingTimesLastYear", PyInt 3);
    ("OverTime", PyStr "No");
    ("BusinessTravel", PyStr "Travel_Rarely");
    ("DistanceFromHome", PyInt 5);
    ("WorkLifeBalance", PyInt 4);
    ("EnvironmentSatisfaction", PyInt 4);
    ("RelationshipSatisfaction", PyInt 4);
    ("Education", PyInt 4);
    ("EducationField", PyStr "Life Sciences");
    ("StockOptionLevel", PyInt 2) ].

Definition SampleData := list (string * pydict).

Definition get_sample_data : Handler SampleData := fun w =>
  let sample_data :=
    [ ("high_risk_employee", high_risk_employee);
      ("low_risk_employee", low_risk_employee) ] in
  (Ok sample_data, w).

(** ** [POST /predict] *)

(** The [if]/[elif]/[else] chain on [probability]. *)
Definition confidence_level (probability : float) : string :=
  if (0.8 <=? probability)%float then "High"
  else if (0.6 <=? probability)%float then "Medium"
  else "Low".

(** The inner [try] block and its handler: the probability of the
    positive class, or [0.5] when anything in the block raises. *)
Definition get_probability (input_df : DataFrame) : Py float :=
  try_except
    (rows <- call_predict_proba input_df ;;
     pred_proba <- index rows 0 ;;
     if (1 <? List.length pred_proba)%nat
     then index pred_proba 1
     else index pred_proba 0)
    (fun proba_error => ret 0.5%float).

(** The body of the outer [try] block. *)
Definition predict_body (data : EmployeeInput) : Py PredictionResponse :=
  let input_df := [dict data] in
  preds <- call_predict input_df ;;
  pred <- index preds 0 ;;
  probability <- get_probability input_df ;;
  pred_int <- int_ pred ;;
  let label := if pred_int =? 1 then "Yes" else "No" in
  let confidence := confidence_level probability in
  ret {| prediction := label;
         probability := probability;
         confidence := confidence |}.

Definition predict_attrition (data : EmployeeInput)
  : Handler PredictionResponse := fun w =>
  if negb (model_loaded (globals w))
  then (HTTPException 503 "Model not loaded. Please check /health endpoint.", w)
  else
    match predict_body data w with
    | (inr r, w') => (Ok r, w')
    | (inl e, w') =>
        (HTTPException 500 ("Prediction error: " ++ exc_str e), w')
    end.

(** ** [POST /test-prediction] *)

Inductive TestBody : Type :=
| TestReport (test_data : pydict) (test_prediction_class : Z)
    (probabilities : list float) (pipeline_type : string)
    (has_predict_proba : bool)
| TestError (error : string) (traceback : string).

Definition hasattr_predict_proba (p : PyObj) : bool :=
  match predict_proba p with Some _ => true | None => false end.

Definition test_body : Py TestBody :=
  let sample_data := high_risk_employee in
  let input_df := [sample_data] in
  preds <- call_predict input_df ;;
  pred <- index preds 0 ;;
  rows <- call_predict_proba input_df ;;
  pred_proba <- index rows 0 ;;
  prediction_int <- int_ pred ;;
  probabilities_list <- tolist pred_proba ;;
  p <- read_global pipeline ;;
  ret (TestReport sample_data prediction_int probabilities_list (cls_repr p)
         (hasattr_predict_proba p)).

Definition test_prediction : Handler TestBody := fun w =>
  if negb (model_loaded (globals w))
  then (HTTPException 503 "Model not loaded", w)
  else
    match test_body w with
    | (inr r, w') => (Ok r, w')
    | (inl e, w') => (Ok (TestError (exc_str e) (exc_tb e)), w')
    end.

(** ** [GET /] *)

Record RootResponse : Type := mkRootResponse {
  root_message : string;
  endpoints : list (string * string);
  root_model_loaded : bool
}.

Definition root : Handler RootResponse := fun w =>
  (Ok {| root_message := "Attrition Prediction API is running!";
         endpoints :=
           [ ("health", "/health - Check API and model status");
             ("sample_data", "/sample-data - Get sample employee data for testing");
             ("test_prediction", "/test-prediction - Test model with sample data");
             ("predict", "/predict - Make attrition predictions");
             ("docs", "/docs - Interactive API documentation") ];
         root_model_loaded := model_loaded (globals w) |}, w).

(** ** The application: routing and serving a sequence of requests *)

Inductive request : Type :=
| GET_root
| GET_health
| GET_sample_data
| POST_predict (data : EmployeeInput)
| POST_test_prediction.

Inductive response : Type :=
| RootR (r : outcome RootResponse)
| HealthR (r : outcome HealthResponse)
| SampleR (r : outcome SampleData)
| PredictR (r : outcome PredictionResponse)
| TestR (r : outcome TestBody).

Definition app (rq : request) (w : World) : response * World :=
  match rq with
  | GET_root => let '(r, w') := root w in (RootR r, w')
  | GET_health => let '(r, w') := health_check w in (HealthR r, w')
  | GET_sample_data => let '(r, w') := get_sample_data w in (SampleR r, w')
  | POST_predict data =>
      let '(r, w') := predict_attrition data w in (PredictR r, w')
  | POST_test_prediction =>
      let '(r, w') := test_prediction w in (TestR r, w')
  end.

(** The responses to a sequence of requests, in order, and the final world. *)
Fixpoint serve (rqs : list request) (w : World) : list response * World :=
  match rqs with
  | [] => ([], w)
  | rq :: rest =>
      let '(r, w') := app rq w in
      let '(rs, w'') := serve rest w' in
      (r :: rs, w'')
  end.

(** ** Concrete predictors and inputs used in the examples *)

(** A [numpy.int64]: [int(...)] returns its value. *)
Definition np_int64 (z : Z) : PyScalar :=
  {| scalar_repr := "np.int64";
     scalar_int := inr z |}.

(** A string label that is not a number: [int(...)] raises. *)
Definition str_label (s : string) : PyScalar :=
  {| scalar_repr := "'" ++ s ++ "'";
     scalar_int :=
       inl {| exc_class := "ValueError";
              exc_str := "invalid literal for int() with base 10: '"
                         ++ s ++ "'";
              exc_tb := "<traceback object>" |} |}.

(** A predictor that answers every input with the same arrays, the
    classes being [numpy.int64] and the rows numpy arrays. *)
Definition const_pipeline (classes : list Z) (proba : list (list float))
  : PyObj :=
  {| cls_name := "Pipeline";
     cls_repr := "<class 'sklearn.pipeline.Pipeline'>";
     predict := Some (fun _ => inr (map np_int64 classes));
     predict_proba := Some (fun _ => inr proba);
     row_tolist_error := None |}.

(** A predictor trained on string labels, with the given probability
    answer. *)
Definition label_pipeline (labels : list string)
           (proba : result (list (list float))) : PyObj :=
  {| cls_name := "Pipeline";
     cls_repr := "<class 'sklearn.pipeline.Pipeline'>";
     predict := Some (fun _ => inr (map str_label labels));
     predict_proba := Some (fun _ => proba);
     row_tolist_error := None |}.

(** A predictor whose probability rows are plain lists. *)
Definition list_rows_pipeline (classes : list Z)
           (proba : list (list float)) : PyObj :=
  {| cls_name := "Wrapper";
     cls_repr := "<class 'Wrapper'>";
     predict := Some (fun _ => inr (map np_int64 classes));
     predict_proba := Some (fun _ => inr proba);
     row_tolist_error :=
       Some {| exc_class := "AttributeError";
               exc_str := "'list' object has no attribute 'tolist'";
               exc_tb := "<traceback object>" |} |}.

Definition RuntimeError (msg : string) : PyExc :=
  {| exc_class := "RuntimeError";
     exc_str := msg;
     exc_tb := "<traceback object>" |}.

(** A predictor whose [predict_proba] raises. *)
Definition broken_proba_pipeline (classes : list Z) (msg : string) : PyObj :=
  {| cls_name := "Pipeline";
     cls_repr := "<class 'sklearn.pipeline.Pipeline'>";
     predict := Some (fun _ => inr (map np_int64 classes));
     predict_proba := Some (fun _ => inl (RuntimeError msg));
     row_tolist_error := None |}.

(** A predictor whose [predict] raises. *)
Definition broken_pipeline (msg : string) : PyObj :=
  {| cls_name := "Pipeline";
     cls_repr := "<class 'sklearn.pipeline.Pipeline'>";
     predict := Some (fun _ => inl (RuntimeError msg));
     predict_proba := Some (fun _ => inr [[0.5; 0.5]%float]);
     row_tolist_error := None |}.

(** A classifier without probability estimates. *)
Definition no_proba_pipeline (classes : list Z) : PyObj :=
  {| cls_name := "LinearSVC";
     cls_repr := "<class 'sklearn.svm._classes.LinearSVC'>";
     predict := Some (fun _ => inr (map np_int64 classes));
     predict_proba := None;
     row_tolist_error := None |}.

(** The world right after a successful load of [p]. *)
Definition loaded (p : PyObj) : World :=
  {| globals := {| pipeline := p; model_loaded := true |}; calls := [] |}.

(** The world after a failed load. *)
Definition degraded : World :=
  {| globals := {| pipeline := py_None; model_loaded := false |};
     calls := [] |}.

(** The "high risk" request of [demo_api.py]. *)
Definition demo_input : EmployeeInput :=
  {| Age := 25; Gender := "Male"; MaritalStatus := "Single";
     Department := "Sales"; JobRole := "Sales Representative";
     JobLevel := 1; JobSatisfaction := 2;
     MonthlyIncome := 2000.0; DailyRate := 100.0; HourlyRate := 12.0;
     MonthlyRate := 2000.0;
     YearsAtCompany := 1; YearsInCurrentRole := 1;
     YearsSinceLastPromotion := 1; TotalWorkingYears := 2;
     YearsWithCurrManager := 1; NumCompaniesWorked := 1;
     PerformanceRating := 2; PercentSalaryHike := 5.0;
     TrainingTimesLastYear := 1;
     OverTime := "Yes"; BusinessTravel := "Travel_Frequently";
     DistanceFromHome := 20; WorkLifeBalance := 2;
     EnvironmentSatisfaction := 2; RelationshipSatisfaction := 2;
     Education := 2; EducationField := "Life Sciences";
     StockOptionLevel := 0 |}.

(** An environment where the artifact exists and loads as [p]. *)
Definition env_with (p : PyObj) : Env :=
  {| path_exists := fun path => String.eqb path pipeline_path;
     joblib_load := fun _ => inr p |}.

(** An environment without the artifact. *)
Definition env_missing : Env :=
  {| path_exists := fun _ => false;
     joblib_load := fun path => inl (FileNotFoundError path) |}.

(** An environment where the artifact exists but does not deserialize. *)
Definition env_corrupt : Env :=
  {| path_exists := fun _ => true;
     joblib_load := fun _ => inl (RuntimeError "invalid load key") |}.

(** The log after a [/predict] call that reached both predictor methods. *)
Definition after_predict (data : EmployeeInput) (w : World) : World :=
  log (CallPredictProba [dict data]) (log (CallPredict [dict data]) w).

(** [0 <= x <= 1] on floats; false on NaN. *)
Definition in_unit_interval (x : float) : bool :=
  ((0 <=? x) && (x <=? 1))%float.

(** The number of [predict] calls in a log. *)
Fixpoint count_predict (evs : list event) : nat :=
  match evs with
  | [] => 0%nat
  | CallPredict _ :: rest => S (count_predict rest)
  | CallPredictProba _ :: rest => count_predict rest
  end.

(** The number of [predict_proba] calls in a log. *)
Fixpoint count_predict_proba (evs : list event) : nat :=
  match evs with
  | [] => 0%nat
  | CallPredict _ :: rest => count_predict_proba rest
  | CallPredictProba _ :: rest => S (count_predict_proba rest)
  end.

(** ** Vocabulary of the statements *)

(** The binary64 values of the two thresholds, as [Prim2SF] gives them. *)
Definition sf_0_8 : spec_float :=
  S754_finite false 7205759403792794%positive (-53)%Z.
Definition sf_0_6 : spec_float :=
  S754_finite false 5404319552844595%positive (-53)%Z.

(** A computation that leaves the module globals as they were. *)
Definition keeps_globals {A} (m : Py A) : Prop :=
  forall w, globals (snd (m w)) = globals w.

(** The class step: [pipeline.predict(input_df)[0]]. *)
Definition predict_step (df : DataFrame) : Py PyScalar :=
  preds <- call_predict df ;; index preds 0.

(** Where the reported probability comes from, case by case. *)
Inductive chosen_probability (o : PyObj) (df : DataFrame) : float -> Prop :=
| chosen_positive_class f p0 p1 rest rows :
    predict_proba o = Some f ->
    f df = inr ((p0 :: p1 :: rest) :: rows) ->
    chosen_probability o df p1
| chosen_single_entry f p0 rows :
    predict_proba o = Some f ->
    f df = inr ([p0] :: rows) ->
    chosen_probability o df p0
| chosen_default_no_attribute :
    predict_proba o = None ->
    chosen_probability o df 0.5%float
| chosen_default_raised f e :
    predict_proba o = Some f ->
    f df = inl e ->
    chosen_probability o df 0.5%float
| chosen_default_no_row f :
    predict_proba o = Some f ->
    f df = inr [] ->
    chosen_probability o df 0.5%float
| chosen_default_empty_row f rows :
    predict_proba o = Some f ->
    f df = inr ([] :: rows) ->
    chosen_probability o df 0.5%float.

(** The ways the class step [pipeline.predict(input_df)[0]] raises. *)
Inductive prediction_raises (o : PyObj) (df : DataFrame) : PyExc -> Prop :=
| raises_no_attribute :
    predict o = None ->
    prediction_raises o df (AttributeError o "predict")
| raises_in_predict f e :
    predict o = Some f ->
    f df = inl e ->
    prediction_raises o df e
| raises_no_row f :
    predict o = Some f ->
    f df = inr [] ->
    prediction_raises o df IndexError.

(** The way [int(pred)] raises: [predict] has returned a class that
    [int] rejects. *)
Inductive conversion_raises (o : PyObj) (df : DataFrame) : PyExc -> Prop :=
| raises_in_int f pred rest e :
    predict o = Some f ->
    f df = inr (pred :: rest) ->
    scalar_int pred = inl e ->
    conversion_raises o df e.

(** The ways [pipeline.predict_proba(input_df)[0]] raises. *)
Inductive proba_raises (o : PyObj) (df : DataFrame) : PyExc -> Prop :=
| proba_no_attribute :
    predict_proba o = None ->
    proba_raises o df (AttributeError o "predict_proba")
| proba_raises_in_call g e :
    predict_proba o = Some g ->
    g df = inl e ->
    proba_raises o df e
| proba_no_row g :
    predict_proba o = Some g ->
    g df = inr [] ->
    proba_raises o df IndexError.

(** * Properties *)

(** ** Order facts about binary64 *)

Section FloatOrder.

Lemma Prim2SF_0_8 : Prim2SF 0.8 = sf_0_8.
Proof. vm_compute. reflexivity. Qed.

Lemma Prim2SF_0_6 : Prim2SF 0.6 = sf_0_6.
Proof. vm_compute. reflexivity. Qed.

Lemma SFcompare_antisym (x y : spec_float) :
  SFcompare y x = option_map CompOpp (SFcompare x y).
Proof.
  destruct x as [sx|sx| |sx mx ex], y as [sy|sy| |sy my ey]; simpl;
    try destruct sx; try destruct sy; simpl; try reflexivity.
  - rewrite (Z.compare_antisym ex ey).
    destruct (ex ?= ey)%Z; simpl; try reflexivity.
    rewrite CompOpp_involutive. f_equal.
    exact (Pos.compare_cont_antisym my mx Eq).
  - rewrite (Z.compare_antisym ex ey).
    destruct (ex ?= ey)%Z; simpl; try reflexivity.
    f_equal. symmetry. exact (Pos.compare_cont_antisym mx my Eq).
Qed.

(** [x < y] excludes [y <= x], NaN included. *)
Lemma ltb_not_leb (x y : float) :
  (x <? y)%float = true -> (y <=? x)%float = false.
Proof.
  rewrite ltb_spec, leb_spec. unfold SFltb, SFleb.
  rewrite (SFcompare_antisym (Prim2SF x) (Prim2SF y)).
  destruct (SFcompare (Prim2SF x) (Prim2SF y)) as [[]|]; simpl; congruence.
Qed.

Lemma mantissa_lt_le (m a b : positive) :
  (a <= b)%positive ->
  Pos.compare_cont Eq m a = Lt -> Pos.compare_cont Eq b m = Gt.
Proof.
  intros Hab H. apply Pos.compare_gt_iff.
  apply Pos.lt_le_trans with a; [exact H | exact Hab].
Qed.

(** Below [0.6] is below [0.8]. *)
Lemma ltb_0_6_not_leb_0_8 (p : float) :
  (p <? 0.6)%float = true -> (0.8 <=? p)%float = false.
Proof.
  rewrite ltb_spec, leb_spec. unfold SFltb, SFleb.
  rewrite Prim2SF_0_8, Prim2SF_0_6. unfold sf_0_8, sf_0_6.
  destruct (Prim2SF p) as [s|s| |s m e]; cbn [SFcompare];
    try destruct s; try congruence.
  rewrite (Z.compare_antisym e (-53)).
  destruct (Z.compare e (-53)); cbn [CompOpp]; try congruence.
  destruct (PosDef.Pos.compare_cont Eq m 5404319552844595) eqn:E;
    try discriminate.
  intros _.
  rewrite (mantissa_lt_le m 5404319552844595 7205759403792794);
    [reflexivity | | exact E].
  vm_compute. discriminate.
Qed.

End FloatOrder.

(** ** The confidence tiers *)

Lemma confidence_level_high (p : float) :
  (0.8 <=? p)%float = true -> confidence_level p = "High".
Proof. unfold confidence_level. now intros ->. Qed.

Lemma confidence_level_medium (p : float) :
  (0.6 <=? p)%float = true -> (p <? 0.8)%float = true ->
  confidence_level p = "Medium".
Proof.
  unfold confidence_level. intros H6 H8.
  now rewrite (ltb_not_leb _ _ H8), H6.
Qed.

Lemma confidence_level_low (p : float) :
  (p <? 0.6)%float = true -> confidence_level p = "Low".
Proof.
  unfold confidence_level. intros H6.
  now rewrite (ltb_0_6_not_leb_0_8 _ H6), (ltb_not_leb _ _ H6).
Qed.

(** ** No Python code of the module assigns a global *)

Section Frame.

Lemma keeps_ret {A} (a : A) : keeps_globals (ret a).
Proof. intros w. reflexivity. Qed.

Lemma keeps_raise {A} (e : PyExc) : keeps_globals (@raise A e).
Proof. intros w. reflexivity. Qed.

Lemma keeps_lift {A} (r : result A) : keeps_globals (lift r).
Proof. intros w. reflexivity. Qed.

Lemma keeps_read_global {A} (f : Globals -> A) :
  keeps_globals (read_global f).
Proof. intros w. reflexivity. Qed.

Lemma keeps_tell (ev : event) : keeps_globals (tell ev).
Proof. intros w. reflexivity. Qed.

Lemma keeps_bind {A B} (m : Py A) (k : A -> Py B) :
  keeps_globals m -> (forall a, keeps_globals (k a)) ->
  keeps_globals (bind m k).
Proof.
  intros Hm Hk w. unfold bind. specialize (Hm w).
  destruct (m w) as [[e|a] w1]; simpl in *; [exact Hm|].
  now rewrite Hk.
Qed.

Lemma keeps_try_except {A} (m : Py A) (h : PyExc -> Py A) :
  keeps_globals m -> (forall e, keeps_globals (h e)) ->
  keeps_globals (try_except m h).
Proof.
  intros Hm Hh w. unfold try_except. specialize (Hm w).
  destruct (m w) as [[e|a] w1]; simpl in *; [|exact Hm].
  now rewrite Hh.
Qed.

Lemma keeps_index {A} (xs : list A) (i : nat) : keeps_globals (index xs i).
Proof. intros w. unfold index. now destruct (nth_error xs i). Qed.

Lemma keeps_if {A} (b : bool) (m1 m2 : Py A) :
  keeps_globals m1 -> keeps_globals m2 ->
  keeps_globals (if b then m1 else m2).
Proof. now destruct b. Qed.

End Frame.

Create HintDb frame.
#[local] Hint Resolve keeps_ret keeps_raise keeps_lift keeps_read_global
  keeps_tell keeps_index : frame.
#[local] Hint Extern 2 (keeps_globals (bind _ _)) =>
  apply keeps_bind; [| intro] : frame.
#[local] Hint Extern 2 (keeps_globals (try_except _ _)) =>
  apply keeps_try_except; [| intro] : frame.
#[local] Hint Extern 2 (keeps_globals (if _ then _ else _)) =>
  apply keeps_if : frame.
#[local] Hint Extern 3 (keeps_globals (match ?x with _ => _ end)) =>
  destruct x : frame.

Lemma keeps_call_predict (df : DataFrame) : keeps_globals (call_predict df).
Proof. unfold call_predict. auto 8 with frame. Qed.

Lemma keeps_call_predict_proba (df : DataFrame) :
  keeps_globals (call_predict_proba df).
Proof. unfold call_predict_proba. auto 8 with frame. Qed.

#[local] Hint Resolve keeps_call_predict keeps_call_predict_proba : frame.

Lemma keeps_int_ (x : PyScalar) : keeps_globals (int_ x).
Proof. unfold int_. auto with frame. Qed.

Lemma keeps_tolist (row : list float) : keeps_globals (tolist row).
Proof. unfold tolist. auto 8 with frame. Qed.

#[local] Hint Resolve keeps_int_ keeps_tolist : frame.

Lemma keeps_get_probability (df : DataFrame) :
  keeps_globals (get_probability df).
Proof. unfold get_probability. auto 10 with frame. Qed.

#[local] Hint Resolve keeps_get_probability : frame.

Lemma keeps_predict_body (data : EmployeeInput) :
  keeps_globals (predict_body data).
Proof. unfold predict_body. auto 12 with frame. Qed.

Lemma keeps_test_body : keeps_globals test_body.
Proof. unfold test_body. auto 16 with frame. Qed.

(** Every route leaves the globals as they were. *)
Lemma app_globals (rq : request) (w : World) :
  globals (snd (app rq w)) = globals w.
Proof.
  destruct rq as [| | |data|]; simpl; try reflexivity.
  - unfold predict_attrition.
    destruct (negb (model_loaded (globals w))); [reflexivity|].
    pose proof (keeps_predict_body data w) as H.
    destruct (predict_body data w) as [[e|r] w1]; exact H.
  - unfold test_prediction.
    destruct (negb (model_loaded (globals w))); [reflexivity|].
    pose proof (keeps_test_body w) as H.
    destruct (test_body w) as [[e|r] w1]; exact H.
Qed.

Lemma serve_globals (rqs : list request) (w : World) :
  globals (snd (serve rqs w)) = globals w.
Proof.
  revert w. induction rqs as [|rq rest IH]; intros w; simpl; [reflexivity|].
  pose proof (app_globals rq w) as Happ.
  destruct (app rq w) as [r w1]. simpl in Happ.
  specialize (IH w1). destruct (serve rest w1) as [rs w2]. simpl in *.
  congruence.
Qed.

(** ** How [/predict] computes its answer *)

Ltac py_unfold :=
  unfold predict_body, test_body, get_probability, call_predict,
    call_predict_proba, int_, tolist, bind, try_except, read_global, tell,
    lift, index, ret, raise, log in *.

(** The probability step never raises, and calls [predict_proba] at most
    once. *)
Lemma get_probability_spec (df : DataFrame) (w : World) :
  exists p w',
    get_probability df w = (inr p, w') /\
    chosen_probability (pipeline (globals w)) df p /\
    globals w' = globals w /\
    (calls w' = calls w \/ calls w' = CallPredictProba df :: calls w).
Proof.
  py_unfold.
  destruct (predict_proba (pipeline (globals w))) as [f|] eqn:Hf.
  - destruct (f df) as [e|[|[|p0 [|p1 rest]] rows]] eqn:Hdf; simpl;
      eexists; eexists; (split; [reflexivity|]);
      (split; [|split; [reflexivity|right; reflexivity]]).
    + eapply chosen_default_raised; eassumption.
    + eapply chosen_default_no_row; eassumption.
    + eapply chosen_default_empty_row; eassumption.
    + eapply chosen_single_entry; eassumption.
    + eapply chosen_positive_class; eassumption.
  - eexists; eexists. split; [reflexivity|].
    split; [now apply chosen_default_no_attribute|].
    split; [reflexivity|left; reflexivity].
Qed.

(** [predict_body] is the class step, the probability step and the
    conversion of the class, in this order. *)
Lemma predict_body_steps (data : EmployeeInput) (w : World) :
  predict_body data w =
  (pred <- predict_step [dict data] ;;
   probability <- get_probability [dict data] ;;
   pred_int <- int_ pred ;;
   ret {| prediction := if pred_int =? 1 then "Yes" else "No";
          probability := probability;
          confidence := confidence_level probability |}) w.
Proof.
  unfold predict_body, predict_step, bind.
  destruct (call_predict [dict data] w) as [[e|preds] w1]; reflexivity.
Qed.

(** The class step succeeds exactly when [predict] exists and returns a
    non-empty array; it then has called [predict] once. *)
Lemma predict_step_ok (df : DataFrame) (w w1 : World) (pred : PyScalar) :
  predict_step df w = (inr pred, w1) <->
  exists f rest,
    predict (pipeline (globals w)) = Some f /\
    f df = inr (pred :: rest) /\
    w1 = log (CallPredict df) w.
Proof.
  unfold predict_step. py_unfold.
  destruct (predict (pipeline (globals w))) as [f|] eqn:Hf.
  - destruct (f df) as [e|[|c rest]] eqn:Hdf; simpl; split.
    + discriminate.
    + intros (f' & rest' & Hf' & Hdf' & _).
      injection Hf' as <-. congruence.
    + discriminate.
    + intros (f' & rest' & Hf' & Hdf' & _).
      injection Hf' as <-. congruence.
    + intros H. injection H as <- <-. now exists f, rest.
    + intros (f' & rest' & Hf' & Hdf' & ->).
      injection Hf' as <-. rewrite Hdf in Hdf'. now injection Hdf' as <- _.
  - split; [discriminate|]. intros (f' & rest' & Hf' & _). discriminate.
Qed.

(** When the class step raises, [predict] was called at most once and
    [predict_proba] not at all. *)
Lemma predict_step_raises (df : DataFrame) (w w1 : World) (e : PyExc) :
  predict_step df w = (inl e, w1) ->
  globals w1 = globals w /\
  (calls w1 = calls w \/ calls w1 = CallPredict df :: calls w).
Proof.
  unfold predict_step. py_unfold.
  destruct (predict (pipeline (globals w))) as [f|].
  - destruct (f df) as [e'|[|c rest]]; simpl; intros H;
      inversion H; subst; simpl; auto.
  - intros H. inversion H; subst. auto.
Qed.

(** What a successful [/predict] body returned, in terms of the predictor. *)
Lemma predict_body_ok (data : EmployeeInput) (w w' : World)
      (r : PredictionResponse) :
  predict_body data w = (inr r, w') ->
  exists f pred rest c p,
    predict (pipeline (globals w)) = Some f /\
    f [dict data] = inr (pred :: rest) /\
    scalar_int pred = inr c /\
    chosen_probability (pipeline (globals w)) [dict data] p /\
    r = {| prediction := if c =? 1 then "Yes" else "No";
           probability := p;
           confidence := confidence_level p |}.
Proof.
  rewrite predict_body_steps. unfold bind at 1.
  destruct (predict_step [dict data] w) as [[e|pred] w1] eqn:Hstep;
    [discriminate|].
  apply predict_step_ok in Hstep. destruct Hstep as (f & rest & Hf & Hdf & ->).
  unfold bind at 1.
  destruct (get_probability_spec [dict data] (log (CallPredict [dict data]) w))
    as (p & w2 & Hp & Hch & _ & _).
  rewrite Hp. unfold bind, int_, lift, ret.
  destruct (scalar_int pred) as [e|c] eqn:Hint; [discriminate|].
  intros H. injection H as <- <-.
  exists f, pred, rest, c, p. auto 6.
Qed.

(** The body raises either the exception of the class step, or, after the
    probability step, the exception of [int(pred)]. *)
Lemma predict_body_raises (data : EmployeeInput) (w w' : World) (e : PyExc) :
  predict_body data w = (inl e, w') <->
  predict_step [dict data] w = (inl e, w') \/
  (exists pred w1 p,
      predict_step [dict data] w = (inr pred, w1) /\
      get_probability [dict data] w1 = (inr p, w') /\
      scalar_int pred = inl e).
Proof.
  rewrite predict_body_steps. unfold bind at 1.
  destruct (predict_step [dict data] w) as [[e1|pred] w1] eqn:Hstep.
  - split.
    + intros H. left. inversion H; reflexivity.
    + intros [H|(pred & w2 & p & H & _)]; inversion H; reflexivity.
  - unfold bind at 1.
    destruct (get_probability_spec [dict data] w1) as (p & w2 & Hp & _).
    rewrite Hp. unfold bind, int_, lift, ret.
    destruct (scalar_int pred) as [e2|c] eqn:Hint; split.
    + intros H. inversion H; subst. right. exists pred, w1, p. auto.
    + intros [H|(pred' & w1' & p' & H & Hp' & Hint')]; [discriminate H|].
      inversion H; subst. rewrite Hp in Hp'. inversion Hp'; subst.
      rewrite Hint in Hint'. now inversion Hint'.
    + discriminate.
    + intros [H|(pred' & w1' & p' & H & Hp' & Hint')]; [discriminate H|].
      inversion H; subst. rewrite Hint in Hint'. discriminate Hint'.
Qed.

(** With the model loaded, the handler wraps the body. *)
Lemma predict_attrition_loaded (data : EmployeeInput) (w : World) :
  model_loaded (globals w) = true ->
  predict_attrition data w =
  match predict_body data w with
  | (inr r, w') => (Ok r, w')
  | (inl e, w') => (HTTPException 500 ("Prediction error: " ++ exc_str e), w')
  end.
Proof. unfold predict_attrition. now intros ->. Qed.

Lemma predict_attrition_unloaded (data : EmployeeInput) (w : World) :
  model_loaded (globals w) = false ->
  predict_attrition data w =
  (HTTPException 503 "Model not loaded. Please check /health endpoint.", w).
Proof. unfold predict_attrition. now intros ->. Qed.

(** A successful [/predict] ran the body with the model loaded. *)
Lemma predict_attrition_ok (data : EmployeeInput) (w w' : World)
      (r : PredictionResponse) :
  predict_attrition data w = (Ok r, w') ->
  model_loaded (globals w) = true /\ predict_body data w = (inr r, w').
Proof.
  unfold predict_attrition.
  destruct (model_loaded (globals w)); simpl; [|discriminate].
  destruct (predict_body data w) as [[e|r1] w1]; [discriminate|].
  intros H. injection H as <- <-. auto.
Qed.

(** ** Confidence tiers of [/predict] *)

(** C1. Whenever [/predict] returns a result, its [confidence] field is
    "High" when [probability >= 0.8], "Medium" when
    [0.6 <= probability < 0.8] and "Low" when [probability < 0.6]; in
    particular a probability equal to 0.8 gives "High" and a probability
    equal to 0.6 gives "Medium". *)
Theorem predict_confidence_tiers (data : EmployeeInput) (w w' : World)
        (r : PredictionResponse) :
  predict_attrition data w = (Ok r, w') ->
  ((0.8 <=? probability r)%float = true -> confidence r = "High") /\
  ((0.6 <=? probability r)%float = true ->
   (probability r <? 0.8)%float = true -> confidence r = "Medium") /\
  ((probability r <? 0.6)%float = true -> confidence r = "Low") /\
  (probability r = 0.8%float -> confidence r = "High") /\
  (probability r = 0.6%float -> confidence r = "Medium").
Proof.
  intros H. apply predict_attrition_ok in H. destruct H as [_ H].
  apply predict_body_ok in H.
  destruct H as (f & pred & rest & c & p & _ & _ & _ & _ & ->). simpl.
  split; [apply confidence_level_high|].
  split; [apply confidence_level_medium|].
  split; [apply confidence_level_low|].
  split; intros ->; reflexivity.
Qed.

(** A run at the upper boundary: the predictor reports exactly 0.8. *)
Lemma predict_confidence_tiers_witness :
  let w := loaded (const_pipeline [1] [[0.2; 0.8]%float]) in
  let r := {| prediction := "Yes"; probability := 0.8%float;
              confidence := "High" |} in
  predict_attrition demo_input w = (Ok r, after_predict demo_input w) /\
  confidence r = "High".
Proof.
  intros w r. split; [reflexivity|].
  apply (proj1 (predict_confidence_tiers demo_input w
                  (after_predict demo_input w) r eq_refl)).
  reflexivity.
Defined.

(** The two boundary values and one value of each tier, through the whole
    handler. *)
Example predict_boundary_0_8 :
  fst (predict_attrition demo_input
         (loaded (const_pipeline [0] [[0.2; 0.8]%float]))) =
  Ok {| prediction := "No"; probability := 0.8%float; confidence := "High" |}.
Proof. reflexivity. Qed.

Example predict_boundary_0_6 :
  fst (predict_attrition demo_input
         (loaded (const_pipeline [1] [[0.4; 0.6]%float]))) =
  Ok {| prediction := "Yes"; probability := 0.6%float;
        confidence := "Medium" |}.
Proof. reflexivity. Qed.

Example predict_below_0_6 :
  fst (predict_attrition demo_input
         (loaded (const_pipeline [0] [[0.41; 0.59]%float]))) =
  Ok {| prediction := "No"; probability := 0.59%float; confidence := "Low" |}.
Proof. reflexivity. Qed.

(** NaN compares false with both thresholds and lands in "Low". *)
Example predict_nan_is_low :
  fst (predict_attrition demo_input
         (loaded (const_pipeline [0] [[nan; nan]%float]))) =
  Ok {| prediction := "No"; probability := nan; confidence := "Low" |}.
Proof. reflexivity. Qed.

(** ** The reported probability *)

(** [chosen_probability] determines the value. *)
Lemma chosen_probability_functional (o : PyObj) (df : DataFrame)
      (p q : float) :
  chosen_probability o df p -> chosen_probability o df q -> p = q.
Proof.
  intros Hp Hq.
  destruct Hp as [f p0 p1 rest rows Hf Hdf|f p0 rows Hf Hdf|Hf|f e Hf Hdf
                 |f Hf Hdf|f rows Hf Hdf];
    destruct Hq as [g q0 q1 rest' rows' Hg Hdg|g q0 rows' Hg Hdg|Hg
                   |g e' Hg Hdg|g Hg Hdg|g rows' Hg Hdg];
    try reflexivity; try congruence.
Qed.

(** C2, as the code has it.  The probability a successful [/predict]
    reports is: entry 1 of the predictor's probability vector when the
    vector has at least two entries; the only entry when it has exactly
    one; and the default 0.5 when [predict_proba] is missing, raises, or
    yields no row or an empty row.  No other value is chosen. *)
Theorem predict_probability_source (data : EmployeeInput) (w w' : World)
        (r : PredictionResponse) :
  predict_attrition data w = (Ok r, w') ->
  chosen_probability (pipeline (globals w)) [dict data] (probability r) /\
  forall q, chosen_probability (pipeline (globals w)) [dict data] q ->
            q = probability r.
Proof.
  intros H. apply predict_attrition_ok in H. destruct H as [_ H].
  apply predict_body_ok in H.
  destruct H as (f & pred & rest & c & p & _ & _ & _ & Hch & ->). simpl.
  split; [exact Hch|].
  intros q Hq. exact (chosen_probability_functional _ _ _ _ Hq Hch).
Qed.

Lemma predict_probability_source_witness :
  let w := loaded (const_pipeline [1] [[0.2; 0.8]%float]) in
  let r := {| prediction := "Yes"; probability := 0.8%float;
              confidence := "High" |} in
  predict_attrition demo_input w = (Ok r, after_predict demo_input w) /\
  chosen_probability (pipeline (globals w)) [dict demo_input] 0.8%float.
Proof.
  intros w r. split; [reflexivity|].
  exact (proj1 (predict_probability_source demo_input w
                  (after_predict demo_input w) r eq_refl)).
Defined.

(** C2 as stated fails: a probability vector with a single entry is
    available, has no entry at index 1, and the reported value is that
    single entry, 0.9, not the default 0.5. *)
Lemma predict_probability_single_entry :
  exists (data : EmployeeInput) (w w' : World) (r : PredictionResponse),
    predict_attrition data w = (Ok r, w') /\
    ~ ((exists f row rows p1,
           predict_proba (pipeline (globals w)) = Some f /\
           f [dict data] = inr (row :: rows) /\
           nth_error row 1 = Some p1 /\
           probability r = p1)
       \/ (predict_proba (pipeline (globals w)) = None /\
           probability r = 0.5%float)).
Proof.
  exists demo_input, (loaded (const_pipeline [1] [[0.9]%float])).
  eexists. eexists. split; [reflexivity|].
  intros [(f & row & rows & p1 & Hf & Hdf & Hnth & _)|[Hnone _]].
  - simpl in Hf. injection Hf as <-. injection Hdf as <- _.
    discriminate Hnth.
  - discriminate Hnone.
Qed.

(** The default is also used when [predict_proba] exists and raises, so
    a reported 0.5 does not imply that the attribute is missing. *)
Example predict_default_with_predict_proba_present :
  let w := loaded (broken_proba_pipeline [1] "boom") in
  hasattr_predict_proba (pipeline (globals w)) = true /\
  fst (predict_attrition demo_input w) =
  Ok {| prediction := "Yes"; probability := 0.5%float; confidence := "Low" |}.
Proof. split; reflexivity. Qed.

Example predict_single_entry_value :
  fst (predict_attrition demo_input
         (loaded (const_pipeline [1] [[0.9]%float]))) =
  Ok {| prediction := "Yes"; probability := 0.9%float; confidence := "High" |}.
Proof. reflexivity. Qed.

(** ** The label *)

(** C3. Whenever [/predict] succeeds, the label is "Yes" if and only if
    the predicted class, converted to an integer, is 1; for every other
    class the label is "No". *)
Theorem predict_label_iff_class_1 (data : EmployeeInput) (w w' : World)
        (r : PredictionResponse) :
  predict_attrition data w = (Ok r, w') ->
  exists f pred rest pred_int,
    predict (pipeline (globals w)) = Some f /\
    f [dict data] = inr (pred :: rest) /\
    scalar_int pred = inr pred_int /\
    (prediction r = "Yes" <-> pred_int = 1) /\
    (pred_int <> 1 -> prediction r = "No").
Proof.
  intros H. apply predict_attrition_ok in H. destruct H as [_ H].
  apply predict_body_ok in H.
  destruct H as (f & pred & rest & c & p & Hf & Hdf & Hint & _ & ->). simpl.
  exists f, pred, rest, c.
  split; [exact Hf|]. split; [exact Hdf|]. split; [exact Hint|].
  destruct (Z.eqb_spec c 1) as [->|Hne].
  - split; [split; reflexivity|]. intros Hc. now elim Hc.
  - split; [|reflexivity]. split; [discriminate|]. intros Hc. now elim Hne.
Qed.

Lemma predict_label_iff_class_1_witness :
  let w := loaded (const_pipeline [1] [[0.2; 0.8]%float]) in
  let r := {| prediction := "Yes"; probability := 0.8%float;
              confidence := "High" |} in
  predict_attrition demo_input w = (Ok r, after_predict demo_input w) /\
  exists f pred rest pred_int,
    predict (pipeline (globals w)) = Some f /\
    f [dict demo_input] = inr (pred :: rest) /\
    scalar_int pred = inr pred_int /\
    (prediction r = "Yes" <-> pred_int = 1) /\
    (pred_int <> 1 -> prediction r = "No").
Proof.
  intros w r. split; [reflexivity|].
  exact (predict_label_iff_class_1 demo_input w
           (after_predict demo_input w) r eq_refl).
Defined.

Example predict_label_class_0 :
  fst (predict_attrition demo_input
         (loaded (const_pipeline [0] [[0.7; 0.3]%float]))) =
  Ok {| prediction := "No"; probability := 0.3%float; confidence := "Low" |}.
Proof. reflexivity. Qed.

(** A class other than 0 and 1 is labelled "No" as well. *)
Example predict_label_class_2 :
  fst (predict_attrition demo_input
         (loaded (const_pipeline [2] [[0.1; 0.9]%float]))) =
  Ok {| prediction := "No"; probability := 0.9%float; confidence := "High" |}.
Proof. reflexivity. Qed.

(** ** Failure paths of [/predict] *)

(** C4. While the model-loaded flag is false, [/predict] answers 503 and
    calls neither [predict] nor [predict_proba]: the log of predictor
    calls, like the rest of the world, is as it was. *)
Theorem predict_unavailable_when_not_loaded (data : EmployeeInput)
        (w : World) :
  model_loaded (globals w) = false ->
  fst (predict_attrition data w) =
    HTTPException 503 "Model not loaded. Please check /health endpoint." /\
  snd (predict_attrition data w) = w /\
  calls (snd (predict_attrition data w)) = calls w.
Proof.
  intros H. rewrite (predict_attrition_unloaded data w H). auto.
Qed.

Lemma predict_unavailable_when_not_loaded_witness :
  fst (predict_attrition demo_input degraded) =
    HTTPException 503 "Model not loaded. Please check /health endpoint." /\
  snd (predict_attrition demo_input degraded) = degraded /\
  calls (snd (predict_attrition demo_input degraded)) = [].
Proof.
  exact (predict_unavailable_when_not_loaded demo_input degraded eq_refl).
Defined.

(** The flag alone decides: a usable predictor in the globals is not
    consulted either. *)
Example predict_gate_ignores_pipeline :
  let w := {| globals := {| pipeline := const_pipeline [1] [[0.2; 0.8]%float];
                            model_loaded := false |};
              calls := [] |} in
  predict_attrition demo_input w =
  (HTTPException 503 "Model not loaded. Please check /health endpoint.", w).
Proof. reflexivity. Qed.

Lemma predict_step_raises_iff (df : DataFrame) (w : World) (e : PyExc) :
  (exists w1, predict_step df w = (inl e, w1)) <->
  prediction_raises (pipeline (globals w)) df e.
Proof.
  unfold predict_step. py_unfold. split.
  - intros [w1 H].
    destruct (predict (pipeline (globals w))) as [f|] eqn:Hf.
    + destruct (f df) as [e'|[|c rest]] eqn:Hdf; simpl in H;
        inversion H; subst.
      * eapply raises_in_predict; eassumption.
      * eapply raises_no_row; eassumption.
    + inversion H; subst. now apply raises_no_attribute.
  - intros [Hf|f e' Hf Hdf|f Hf Hdf]; rewrite Hf; try rewrite Hdf; simpl;
      eexists; reflexivity.
Qed.

(** The exception of [int(pred)] is raised after the probability step. *)
Lemma predict_body_conversion_raises (data : EmployeeInput) (w : World)
      (e : PyExc) :
  conversion_raises (pipeline (globals w)) [dict data] e ->
  exists w1,
    predict_body data w = (inl e, w1) /\
    globals w1 = globals w /\
    (calls w1 = CallPredict [dict data] :: calls w \/
     calls w1 = CallPredictProba [dict data]
                  :: CallPredict [dict data] :: calls w).
Proof.
  intros [f pred rest e' Hf Hdf Hint].
  assert (Hstep : predict_step [dict data] w =
                  (inr pred, log (CallPredict [dict data]) w)).
  { apply predict_step_ok. now exists f, rest. }
  destruct (get_probability_spec [dict data] (log (CallPredict [dict data]) w))
    as (p & w2 & Hp & _ & Hg & Hc).
  exists w2. split.
  - apply predict_body_raises. right.
    exists pred, (log (CallPredict [dict data]) w), p. auto.
  - split; [exact Hg|]. destruct Hc as [Hc|Hc]; rewrite Hc; simpl; auto.
Qed.

(** C5, as the code has it.  With the model loaded, an exception raised
    during prediction outside the probability step, that is by the class
    step [pipeline.predict(input_df)[0]] (a missing [predict] attribute, an
    exception inside [predict], an empty result) or by [int(pred)],
    surfaces as a 500 error whose detail is "Prediction error: " followed
    by the exception's message.  Nothing recovers it and nothing is
    retried: [predict] and [predict_proba] have each been called at most
    once ([predict_proba] not at all when the class step raised), and no
    result is returned. *)
Theorem predict_exception_surfaces (data : EmployeeInput) (w : World)
        (e : PyExc) :
  model_loaded (globals w) = true ->
  prediction_raises (pipeline (globals w)) [dict data] e \/
  conversion_raises (pipeline (globals w)) [dict data] e ->
  exists w1,
    predict_attrition data w =
      (HTTPException 500 ("Prediction error: " ++ exc_str e), w1) /\
    (count_predict (calls w1) <= S (count_predict (calls w)))%nat /\
    (count_predict_proba (calls w1) <=
     S (count_predict_proba (calls w)))%nat /\
    (prediction_raises (pipeline (globals w)) [dict data] e ->
     count_predict_proba (calls w1) = count_predict_proba (calls w)) /\
    globals w1 = globals w.
Proof.
  intros Hloaded [Hraise|Hconv].
  - apply predict_step_raises_iff in Hraise. destruct Hraise as [w1 Hstep].
    exists w1. rewrite (predict_attrition_loaded data w Hloaded).
    rewrite (proj2 (predict_body_raises data w w1 e) (or_introl Hstep)).
    split; [reflexivity|].
    destruct (predict_step_raises _ _ _ _ Hstep) as [Hg [Hc|Hc]];
      rewrite Hc; simpl; auto.
  - destruct (predict_body_conversion_raises data w e Hconv)
      as (w1 & Hbody & Hg & Hc).
    exists w1. rewrite (predict_attrition_loaded data w Hloaded), Hbody.
    split; [reflexivity|].
    assert (Hnot : prediction_raises (pipeline (globals w)) [dict data] e ->
                   False).
    { destruct Hconv as [f pred rest e' Hf Hdf Hint].
      intros [H1|f1 x1 H1 D1|f1 H1 D1]; congruence. }
    destruct Hc as [Hc|Hc]; rewrite Hc; simpl;
      (split; [auto|]); (split; [auto|]); (split; [|exact Hg]);
      intros H; elim (Hnot H).
Qed.

Lemma predict_exception_surfaces_witness :
  exists w1,
    predict_attrition demo_input
      (loaded (label_pipeline ["Yes"] (inr [[0.3; 0.7]%float]))) =
      (HTTPException 500
         "Prediction error: invalid literal for int() with base 10: 'Yes'",
       w1) /\
    (count_predict (calls w1) <= 1)%nat /\
    (count_predict_proba (calls w1) <= 1)%nat /\
    globals w1 =
      globals (loaded (label_pipeline ["Yes"] (inr [[0.3; 0.7]%float]))).
Proof.
  assert (Hconv : conversion_raises
            (pipeline (globals
               (loaded (label_pipeline ["Yes"] (inr [[0.3; 0.7]%float])))))
            [dict demo_input]
            {| exc_class := "ValueError";
               exc_str := "invalid literal for int() with base 10: 'Yes'";
               exc_tb := "<traceback object>" |}).
  { apply raises_in_int
      with (f := fun _ => inr [str_label "Yes"]) (pred := str_label "Yes")
           (rest := []); reflexivity. }
  destruct (predict_exception_surfaces demo_input
              (loaded (label_pipeline ["Yes"] (inr [[0.3; 0.7]%float])))
              _ eq_refl (or_intror Hconv))
    as (w1 & H & Hp & Hq & _ & Hg).
  exists w1. auto.
Defined.

(** The same for an exception of the class step itself. *)
Example predict_raises_in_predict :
  predict_attrition demo_input (loaded (broken_pipeline "bad input")) =
  (HTTPException 500 "Prediction error: bad input",
   log (CallPredict [dict demo_input]) (loaded (broken_pipeline "bad input"))).
Proof. reflexivity. Qed.

(** C5 as stated fails for the probability step: an exception raised by
    [predict_proba] during a [/predict] call is caught by the inner
    handler, and the call answers normally with the default 0.5. *)
Lemma predict_recovers_proba_exception :
  exists (data : EmployeeInput) (w w' : World) (e : PyExc)
         (r : PredictionResponse),
    model_loaded (globals w) = true /\
    proba_raises (pipeline (globals w)) [dict data] e /\
    predict_attrition data w = (Ok r, w') /\
    probability r = 0.5%float /\
    forall code detail w1,
      predict_attrition data w <> (HTTPException code detail, w1).
Proof.
  exists demo_input, (loaded (broken_proba_pipeline [1] "boom")).
  eexists. exists (RuntimeError "boom"). eexists.
  split; [reflexivity|].
  split.
  { apply proba_raises_in_call with (g := fun _ => inl (RuntimeError "boom"));
      reflexivity. }
  split; [reflexivity|]. split; [reflexivity|].
  intros code detail w1. discriminate.
Qed.

(** Conversely, every 500 answer of [/predict] carries the message of an
    exception raised by the class step or by [int(pred)]. *)
Lemma predict_500_only_from_prediction (data : EmployeeInput) (w w' : World)
      (code : Z) (detail : string) :
  model_loaded (globals w) = true ->
  predict_attrition data w = (HTTPException code detail, w') ->
  code = 500 /\
  exists e, (prediction_raises (pipeline (globals w)) [dict data] e \/
             conversion_raises (pipeline (globals w)) [dict data] e) /\
            detail = "Prediction error: " ++ exc_str e.
Proof.
  intros Hloaded. rewrite (predict_attrition_loaded data w Hloaded).
  destruct (predict_body data w) as [[e|r] w1] eqn:Hbody; [|discriminate].
  intros H. injection H as <- <- <-. split; [reflexivity|].
  exists e. split; [|reflexivity].
  apply predict_body_raises in Hbody.
  destruct Hbody as [Hstep|(pred & w2 & p & Hstep & _ & Hint)].
  - left. apply predict_step_raises_iff. now exists w1.
  - right. apply predict_step_ok in Hstep.
    destruct Hstep as (f & rest & Hf & Hdf & _).
    now apply raises_in_int with f pred rest.
Qed.

(** A loaded object without [predict] (for instance a pickled [None]). *)
Example predict_on_None :
  fst (predict_attrition demo_input (loaded py_None)) =
  HTTPException 500
    "Prediction error: 'NoneType' object has no attribute 'predict'".
Proof. reflexivity. Qed.

(** C9 as stated fails: [int(pred)] runs after the inner handler has
    set the default, so when [predict] succeeds with a class that [int]
    rejects (here the string label 'Yes') and [predict_proba] raises, the
    call answers 500, not 0.5 and "Low". *)
Lemma predict_proba_failure_then_int_failure :
  exists (data : EmployeeInput) (w w' : World)
         (f : DataFrame -> result (list PyScalar)) (pred : PyScalar)
         (rest : list PyScalar)
         (g : DataFrame -> result (list (list float))) (e : PyExc),
    model_loaded (globals w) = true /\
    predict (pipeline (globals w)) = Some f /\
    f [dict data] = inr (pred :: rest) /\
    predict_proba (pipeline (globals w)) = Some g /\
    g [dict data] = inl e /\
    predict_attrition data w =
      (HTTPException 500
         "Prediction error: invalid literal for int() with base 10: 'Yes'",
       w').
Proof.
  exists demo_input,
    (loaded (label_pipeline ["Yes"] (inl (RuntimeError "boom")))).
  eexists. eexists. exists (str_label "Yes"), [].
  eexists. exists (RuntimeError "boom").
  split; [reflexivity|]. split; [reflexivity|]. split; [reflexivity|].
  split; [reflexivity|]. split; reflexivity.
Qed.

(** C9, as the code has it.  When [predict] succeeds with a class that
    [int] converts and [predict_proba] raises, [/predict] still succeeds,
    and reports probability 0.5 and confidence "Low". *)
Theorem predict_survives_proba_failure (data : EmployeeInput) (w : World)
        (f : DataFrame -> result (list PyScalar)) (pred : PyScalar)
        (rest : list PyScalar) (pred_int : Z)
        (g : DataFrame -> result (list (list float))) (e : PyExc) :
  model_loaded (globals w) = true ->
  predict (pipeline (globals w)) = Some f ->
  f [dict data] = inr (pred :: rest) ->
  scalar_int pred = inr pred_int ->
  predict_proba (pipeline (globals w)) = Some g ->
  g [dict data] = inl e ->
  exists r,
    predict_attrition data w = (Ok r, after_predict data w) /\
    probability r = 0.5%float /\
    confidence r = "Low".
Proof.
  intros Hloaded Hf Hdf Hint Hg Hdg.
  rewrite (predict_attrition_loaded data w Hloaded).
  unfold after_predict. py_unfold. simpl.
  rewrite Hf, Hdf. simpl. rewrite Hg, Hdg. simpl. rewrite Hint.
  eexists. split; [reflexivity|]. split; reflexivity.
Qed.

Lemma predict_survives_proba_failure_witness :
  exists r,
    predict_attrition demo_input (loaded (broken_proba_pipeline [1] "boom")) =
      (Ok r, after_predict demo_input
               (loaded (broken_proba_pipeline [1] "boom"))) /\
    probability r = 0.5%float /\
    confidence r = "Low".
Proof.
  apply (predict_survives_proba_failure demo_input
           (loaded (broken_proba_pipeline [1] "boom"))
           (fun _ => inr [np_int64 1]) (np_int64 1) [] 1
           (fun _ => inl (RuntimeError "boom")) (RuntimeError "boom"));
    reflexivity.
Defined.

(** ** The range of the reported probability *)

(** C6 as stated fails: the handler forwards whatever number the
    predictor returns.  Here the predictor reports 1.5. *)
Lemma predict_probability_out_of_range :
  exists (data : EmployeeInput) (w w' : World) (r : PredictionResponse),
    model_loaded (globals w) = true /\
    predict_attrition data w = (Ok r, w') /\
    probability r = 1.5%float /\
    in_unit_interval (probability r) = false.
Proof.
  exists demo_input, (loaded (const_pipeline [1] [[-0.5; 1.5]%float])).
  eexists. eexists.
  split; [reflexivity|]. split; [reflexivity|]. split; reflexivity.
Qed.

(** C6, as the code has it.  If every entry of the probability rows the
    predictor returns for the input lies in [0,1], the probability of a
    successful [/predict] lies in [0,1]; the default 0.5 does too. *)
Theorem predict_probability_in_unit_interval (data : EmployeeInput)
        (w w' : World) (r : PredictionResponse) :
  (forall g rows row x,
      predict_proba (pipeline (globals w)) = Some g ->
      g [dict data] = inr rows ->
      In row rows -> In x row -> in_unit_interval x = true) ->
  predict_attrition data w = (Ok r, w') ->
  in_unit_interval (probability r) = true.
Proof.
  intros Hrange H. apply predict_attrition_ok in H. destruct H as [_ H].
  apply predict_body_ok in H.
  destruct H as (f0 & pred & rest0 & c & p & _ & _ & _ & Hch & ->). simpl.
  destruct Hch as [f p0 p1 rest rows Hf Hdf|f p0 rows Hf Hdf|Hf|f e Hf Hdf
                  |f Hf Hdf|f rows Hf Hdf]; try reflexivity.
  - apply (Hrange f _ (p0 :: p1 :: rest) p1 Hf Hdf); simpl; auto.
  - apply (Hrange f _ [p0] p0 Hf Hdf); simpl; auto.
Qed.

Lemma predict_probability_in_unit_interval_witness :
  let w := loaded (const_pipeline [1] [[0.2; 0.8]%float]) in
  let r := {| prediction := "Yes"; probability := 0.8%float;
              confidence := "High" |} in
  predict_attrition demo_input w = (Ok r, after_predict demo_input w) /\
  in_unit_interval (probability r) = true.
Proof.
  intros w r. split; [reflexivity|].
  apply (predict_probability_in_unit_interval demo_input w
           (after_predict demo_input w) r); [|reflexivity].
  intros g rows row x Hg Hrows Hrow Hx.
  injection Hg as <-. injection Hrows as <-.
  destruct Hrow as [<-|[]].
  destruct Hx as [<-|[<-|[]]]; reflexivity.
Defined.

(** NaN is a float the predictor can return; it is outside [0,1] too. *)
Example predict_probability_nan :
  let r := {| prediction := "Yes"; probability := nan; confidence := "Low" |} in
  fst (predict_attrition demo_input
         (loaded (const_pipeline [1] [[nan; nan]%float]))) = Ok r /\
  in_unit_interval (probability r) = false.
Proof. split; reflexivity. Qed.

(** ** [/sample-data] *)

(** C7. Every call to [/sample-data] returns the same value, the two
    literal records "high_risk_employee" and "low_risk_employee", whatever
    the world it runs in and whatever requests were served before; the
    call changes nothing. *)
Theorem sample_data_is_constant (rqs : list request) (w1 w2 : World) :
  fst (get_sample_data w1) =
    Ok [ ("high_risk_employee", high_risk_employee);
         ("low_risk_employee", low_risk_employee) ] /\
  fst (get_sample_data (snd (serve rqs w1))) = fst (get_sample_data w2) /\
  snd (get_sample_data w1) = w1.
Proof. repeat split. Qed.

(** The responses to [/sample-data] inside any sequence of requests. *)
Lemma serve_sample_data (rqs : list request) (w : World)
      (r : outcome SampleData) :
  In (SampleR r) (fst (serve rqs w)) ->
  r = Ok [ ("high_risk_employee", high_risk_employee);
           ("low_risk_employee", low_risk_employee) ].
Proof.
  revert w. induction rqs as [|rq rest IH]; intros w; simpl; [tauto|].
  destruct (app rq w) as [r1 w1] eqn:Happ.
  destruct (serve rest w1) as [rs w2] eqn:Hserve. simpl.
  intros [H|H].
  - subst r1. destruct rq; simpl in Happ.
    + discriminate.
    + discriminate.
    + now injection Happ as <- _.
    + destruct (predict_attrition data w); discriminate.
    + destruct (test_prediction w); discriminate.
  - apply (IH w1). now rewrite Hserve.
Qed.

(** The literal records have the 29 fields of [EmployeeInput], in order,
    and the first one is the request [demo_api.py] sends. *)
Example sample_records_shape :
  map fst high_risk_employee = map fst (dict demo_input) /\
  map fst low_risk_employee = map fst (dict demo_input) /\
  List.length high_risk_employee = 29%nat /\
  dict demo_input = high_risk_employee.
Proof. repeat split. Qed.

(** ** The model-loaded flag *)

Lemma load_model_flag (env : Env) (p0 : PyObj) :
  fst (load_model env p0) = true <->
  path_exists env pipeline_path = true /\
  exists p, joblib_load env pipeline_path = inr p.
Proof.
  unfold load_model.
  destruct (path_exists env pipeline_path); simpl.
  - destruct (joblib_load env pipeline_path) as [e|p]; simpl; split.
    + discriminate.
    + intros [_ [p H]]. discriminate.
    + intros _. split; [reflexivity|]. now exists p.
    + reflexivity.
  - split; [discriminate|]. intros [H _]. discriminate.
Qed.

Lemma startup_flag (env : Env) :
  model_loaded (globals (startup env)) = fst (load_model env py_None).
Proof. unfold startup. now destruct (load_model env py_None). Qed.

(** Every [/health] answer in a run reports the flag of the initial world. *)
Lemma serve_health (rqs : list request) (w : World)
      (h : outcome HealthResponse) :
  In (HealthR h) (fst (serve rqs w)) ->
  exists hr, h = Ok hr /\
             health_model_loaded hr = model_loaded (globals w) /\
             status hr = (if model_loaded (globals w)
                          then "healthy" else "unhealthy").
Proof.
  revert w. induction rqs as [|rq rest IH]; intros w; simpl; [tauto|].
  pose proof (app_globals rq w) as Hglob.
  destruct (app rq w) as [r1 w1] eqn:Happ.
  destruct (serve rest w1) as [rs w2] eqn:Hserve. simpl in *.
  intros [H|H].
  - subst r1. destruct rq; simpl in Happ.
    + discriminate.
    + injection Happ as <- _. eexists. split; [reflexivity|]. split; reflexivity.
    + discriminate.
    + destruct (predict_attrition data w); discriminate.
    + destruct (test_prediction w); discriminate.
  - rewrite <- Hglob. apply (IH w1). now rewrite Hserve.
Qed.

(** C8. The flag is set at start-up: it is true exactly when the artifact
    file exists and deserializes, and false (with the service running) when
    the file is missing or loading raises.  No handler changes it: after any
    sequence of requests it has its start-up value, and every [/health]
    answer in the sequence reports that value. *)
Theorem model_loaded_fixed_at_startup (env : Env) (rqs : list request) :
  (model_loaded (globals (startup env)) = true <->
   path_exists env pipeline_path = true /\
   exists p, joblib_load env pipeline_path = inr p) /\
  (model_loaded (globals (startup env)) = false <->
   path_exists env pipeline_path = false \/
   exists e, joblib_load env pipeline_path = inl e) /\
  model_loaded (globals (snd (serve rqs (startup env)))) =
    model_loaded (globals (startup env)) /\
  (forall h, In (HealthR h) (fst (serve rqs (startup env))) ->
     exists hr, h = Ok hr /\
       health_model_loaded hr = model_loaded (globals (startup env))).
Proof.
  split; [|split; [|split]].
  - rewrite startup_flag. apply load_model_flag.
  - rewrite startup_flag. unfold load_model.
    destruct (path_exists env pipeline_path); simpl.
    + destruct (joblib_load env pipeline_path) as [e|p]; simpl; split.
      * intros _. right. now exists e.
      * reflexivity.
      * discriminate.
      * intros [H|[e H]]; discriminate.
    + split; auto.
  - now rewrite serve_globals.
  - intros h Hin. destruct (serve_health _ _ _ Hin) as (hr & -> & Hflag & _).
    now exists hr.
Qed.

Lemma model_loaded_fixed_at_startup_witness :
  model_loaded (globals (startup env_missing)) = false /\
  model_loaded (globals (snd (serve [POST_predict demo_input; GET_health]
                                    (startup env_missing)))) = false /\
  exists hr,
    Ok {| status := "unhealthy"; health_model_loaded := false;
          message := "Model failed to load" |} = Ok hr /\
    health_model_loaded hr = model_loaded (globals (startup env_missing)).
Proof.
  pose proof (model_loaded_fixed_at_startup env_missing
                [POST_predict demo_input; GET_health]) as (_ & Hf & Hkeep & Hh).
  split; [apply (proj2 Hf); left; reflexivity|].
  split; [rewrite Hkeep; reflexivity|].
  apply Hh. right. left. reflexivity.
Defined.

(** Start-up with a missing artifact, then traffic: the service answers,
    [/health] says "unhealthy", and the flag stays false. *)
Example degraded_run :
  let run := serve [GET_health; POST_predict demo_input; POST_test_prediction;
                    GET_health]
                   (startup env_missing) in
  fst run =
    [ HealthR (Ok {| status := "unhealthy"; health_model_loaded := false;
                     message := "Model failed to load" |});
      PredictR (HTTPException 503
                  "Model not loaded. Please check /health endpoint.");
      TestR (HTTPException 503 "Model not loaded");
      HealthR (Ok {| status := "unhealthy"; health_model_loaded := false;
                     message := "Model failed to load" |}) ] /\
  snd run = degraded.
Proof. split; reflexivity. Qed.

Example corrupt_artifact_startup : startup env_corrupt = degraded.
Proof. reflexivity. Qed.

Example healthy_run :
  let run := serve [POST_predict demo_input; GET_health]
                   (startup (env_with (const_pipeline [1] [[0.2; 0.8]%float]))) in
  fst run =
    [ PredictR (Ok {| prediction := "Yes"; probability := 0.8%float;
                      confidence := "High" |});
      HealthR (Ok {| status := "healthy"; health_model_loaded := true;
                     message := "Model loaded successfully" |}) ].
Proof. reflexivity. Qed.

(** While the flag is false, no request reaches the predictor. *)
Lemma degraded_service_never_predicts (rqs : list request) (w : World) :
  model_loaded (globals w) = false -> snd (serve rqs w) = w.
Proof.
  revert w. induction rqs as [|rq rest IH]; intros w Hflag; simpl;
    [reflexivity|].
  assert (Happ : snd (app rq w) = w).
  { destruct rq; simpl; try reflexivity.
    - now rewrite (predict_attrition_unloaded data w Hflag).
    - unfold test_prediction. now rewrite Hflag. }
  destruct (app rq w) as [r1 w1]. simpl in Happ. subst w1.
  specialize (IH w Hflag). destruct (serve rest w) as [rs w2]. exact IH.
Qed.

(** ** [/test-prediction] *)

(** What the body of the [try] block does, by cases on the predictor:
    the class step raises; or the probability step raises; or [int(pred)]
    raises; or [.tolist()] raises; or a report is returned. *)
Lemma test_body_cases (w : World) :
  (exists e w1, test_body w = (inl e, w1) /\
     prediction_raises (pipeline (globals w)) [high_risk_employee] e) \/
  (exists e w1 f pred rest, test_body w = (inl e, w1) /\
     predict (pipeline (globals w)) = Some f /\
     f [high_risk_employee] = inr (pred :: rest) /\
     proba_raises (pipeline (globals w)) [high_risk_employee] e) \/
  (exists e w1 f pred rest g row rows, test_body w = (inl e, w1) /\
     predict (pipeline (globals w)) = Some f /\
     f [high_risk_employee] = inr (pred :: rest) /\
     predict_proba (pipeline (globals w)) = Some g /\
     g [high_risk_employee] = inr (row :: rows) /\
     (scalar_int pred = inl e \/
      (exists c, scalar_int pred = inr c) /\
      row_tolist_error (pipeline (globals w)) = Some e)) \/
  (exists w1 f pred rest g row rows c, test_body w =
       (inr (TestReport high_risk_employee c row
               (cls_repr (pipeline (globals w))) true), w1) /\
     predict (pipeline (globals w)) = Some f /\
     f [high_risk_employee] = inr (pred :: rest) /\
     predict_proba (pipeline (globals w)) = Some g /\
     g [high_risk_employee] = inr (row :: rows) /\
     scalar_int pred = inr c /\
     row_tolist_error (pipeline (globals w)) = None).
Proof.
  py_unfold. unfold hasattr_predict_proba.
  destruct (predict (pipeline (globals w))) as [f|] eqn:Hf.
  - destruct (f [high_risk_employee]) as [e|[|pred rest]] eqn:Hdf; simpl.
    + left. do 2 eexists. split; [reflexivity|].
      eapply raises_in_predict; eassumption.
    + left. do 2 eexists. split; [reflexivity|].
      eapply raises_no_row; eassumption.
    + right.
      destruct (predict_proba (pipeline (globals w))) as [g|] eqn:Hg.
      * destruct (g [high_risk_employee]) as [e|[|row rows]] eqn:Hdg; simpl.
        -- left. exists e. eexists. exists f, pred, rest.
           split; [reflexivity|]. repeat split; try assumption.
           eapply proba_raises_in_call; eassumption.
        -- left. exists IndexError. eexists. exists f, pred, rest.
           split; [reflexivity|]. repeat split; try assumption.
           eapply proba_no_row; eassumption.
        -- right.
           destruct (scalar_int pred) as [e|c] eqn:Hint; simpl.
           ++ left. exists e. eexists. exists f, pred, rest, g, row, rows.
              split; [reflexivity|]. auto 7.
           ++ destruct (row_tolist_error (pipeline (globals w)))
                as [e|] eqn:Htl; simpl.
              ** left. exists e. eexists. exists f, pred, rest, g, row, rows.
                 split; [reflexivity|]. do 4 (split; [auto|]).
                 right. split; [now exists c | auto].
              ** right. eexists. exists f, pred, rest, g, row, rows, c.
                 rewrite Hg. split; [reflexivity|]. auto 7.
      * left. eexists. eexists. exists f, pred, rest.
        split; [reflexivity|]. repeat split; try assumption.
        now apply proba_no_attribute.
  - left. do 2 eexists. split; [reflexivity|].
    now apply raises_no_attribute.
Qed.

Lemma prediction_raises_functional (o : PyObj) (df : DataFrame)
      (e1 e2 : PyExc) :
  prediction_raises o df e1 -> prediction_raises o df e2 -> e1 = e2.
Proof.
  intros [H1|f1 x1 H1 D1|f1 H1 D1] [H2|f2 x2 H2 D2|f2 H2 D2];
    try reflexivity; congruence.
Qed.

Lemma proba_raises_functional (o : PyObj) (df : DataFrame) (e1 e2 : PyExc) :
  proba_raises o df e1 -> proba_raises o df e2 -> e1 = e2.
Proof.
  intros [H1|f1 x1 H1 D1|f1 H1 D1] [H2|f2 x2 H2 D2|f2 H2 D2];
    try reflexivity; congruence.
Qed.

Lemma prediction_raises_not_ok (o : PyObj) (df : DataFrame) (e : PyExc)
      (f : DataFrame -> result (list PyScalar)) (pred : PyScalar)
      (rest : list PyScalar) :
  prediction_raises o df e -> predict o = Some f ->
  f df = inr (pred :: rest) -> False.
Proof. intros [H1|f1 x1 H1 D1|f1 H1 D1] Hf Hdf; congruence. Qed.

Lemma proba_raises_not_ok (o : PyObj) (df : DataFrame) (e : PyExc)
      (g : DataFrame -> result (list (list float))) (row : list float)
      (rows : list (list float)) :
  proba_raises o df e -> predict_proba o = Some g ->
  g df = inr (row :: rows) -> False.
Proof. intros [H1|f1 x1 H1 D1|f1 H1 D1] Hf Hdf; congruence. Qed.

(** C10. With the model loaded, [/test-prediction] never answers with an
    HTTP error: an exception raised by the prediction or by the
    probability computation comes back in a normal response, as a record
    whose "error" field is the exception's message; so does an exception
    of [int(pred)] or of [.tolist()].  The only HTTP error the route
    produces is 503, and only while the model is not loaded. *)
Theorem test_prediction_reports_errors_in_body (w : World) :
  (model_loaded (globals w) = true ->
   (exists body w', test_prediction w = (Ok body, w')) /\
   (forall e,
       prediction_raises (pipeline (globals w)) [high_risk_employee] e ->
       fst (test_prediction w) = Ok (TestError (exc_str e) (exc_tb e))) /\
   (forall f pred rest e,
       predict (pipeline (globals w)) = Some f ->
       f [high_risk_employee] = inr (pred :: rest) ->
       proba_raises (pipeline (globals w)) [high_risk_employee] e ->
       fst (test_prediction w) = Ok (TestError (exc_str e) (exc_tb e))) /\
   (forall f pred rest g row rows e,
       predict (pipeline (globals w)) = Some f ->
       f [high_risk_employee] = inr (pred :: rest) ->
       predict_proba (pipeline (globals w)) = Some g ->
       g [high_risk_employee] = inr (row :: rows) ->
       scalar_int pred = inl e \/
       ((exists c, scalar_int pred = inr c) /\
        row_tolist_error (pipeline (globals w)) = Some e) ->
       fst (test_prediction w) = Ok (TestError (exc_str e) (exc_tb e)))) /\
  (forall code detail w',
      test_prediction w = (HTTPException code detail, w') ->
      model_loaded (globals w) = false /\ code = 503).
Proof.
  unfold test_prediction. split.
  - intros ->. simpl.
    destruct (test_body_cases w)
      as [(e0 & w1 & Hb & Hr)
         |[(e0 & w1 & f0 & pred0 & rest0 & Hb & Hf0 & Hdf0 & Hr)
          |[(e0 & w1 & f0 & pred0 & rest0 & g0 & row0 & rows0 & Hb & Hf0
             & Hdf0 & Hg0 & Hdg0 & Hlate)
           |(w1 & f0 & pred0 & rest0 & g0 & row0 & rows0 & c0 & Hb & Hf0
             & Hdf0 & Hg0 & Hdg0 & Hint0 & Htl0)]]];
      rewrite Hb; simpl.
    + split; [eauto|]. split; [|split].
      * intros e He. now rewrite (prediction_raises_functional _ _ _ _ He Hr).
      * intros f pred rest e Hf Hdf _.
        elim (prediction_raises_not_ok _ _ _ _ _ _ Hr Hf Hdf).
      * intros f pred rest g row rows e Hf Hdf _ _ _.
        elim (prediction_raises_not_ok _ _ _ _ _ _ Hr Hf Hdf).
    + split; [eauto|]. split; [|split].
      * intros e He.
        elim (prediction_raises_not_ok _ _ _ _ _ _ He Hf0 Hdf0).
      * intros f pred rest e _ _ He.
        now rewrite (proba_raises_functional _ _ _ _ He Hr).
      * intros f pred rest g row rows e _ _ Hg Hdg _.
        elim (proba_raises_not_ok _ _ _ _ _ _ Hr Hg Hdg).
    + split; [eauto|]. split; [|split].
      * intros e He.
        elim (prediction_raises_not_ok _ _ _ _ _ _ He Hf0 Hdf0).
      * intros f pred rest e _ _ He.
        elim (proba_raises_not_ok _ _ _ _ _ _ He Hg0 Hdg0).
      * intros f pred rest g row rows e Hf Hdf Hg Hdg Hlate'.
        assert (pred = pred0) by congruence. subst pred.
        destruct Hlate as [Hi|[[c Hi] Ht]], Hlate' as [Hi'|[[c' Hi'] Ht']];
          congruence.
    + split; [eauto|]. split; [|split].
      * intros e He.
        elim (prediction_raises_not_ok _ _ _ _ _ _ He Hf0 Hdf0).
      * intros f pred rest e _ _ He.
        elim (proba_raises_not_ok _ _ _ _ _ _ He Hg0 Hdg0).
      * intros f pred rest g row rows e Hf Hdf Hg Hdg Hlate'.
        assert (pred = pred0) by congruence. subst pred.
        destruct Hlate' as [Hi'|[[c' Hi'] Ht']]; congruence.
  - intros code detail w'.
    destruct (model_loaded (globals w)); simpl.
    + destruct (test_body w) as [[e|r] w1]; discriminate.
    + intros H. injection H as <- _ _. auto.
Qed.

Lemma test_prediction_reports_errors_in_body_witness :
  fst (test_prediction (loaded (broken_proba_pipeline [1] "boom"))) =
  Ok (TestError "boom" "<traceback object>").
Proof.
  apply (proj1 (proj2 (proj2 (proj1
           (test_prediction_reports_errors_in_body
              (loaded (broken_proba_pipeline [1] "boom"))) eq_refl)))
           (fun _ => inr [np_int64 1]) (np_int64 1) [] (RuntimeError "boom")).
  - reflexivity.
  - reflexivity.
  - apply proba_raises_in_call with (g := fun _ => inl (RuntimeError "boom"));
      reflexivity.
Defined.

(** A class that [int] rejects and rows without [.tolist()] are reported
    in the body too, after both predictor calls. *)
Example test_prediction_int_raises :
  test_prediction (loaded (label_pipeline ["Yes"] (inr [[0.3; 0.7]%float]))) =
  (Ok (TestError "invalid literal for int() with base 10: 'Yes'"
         "<traceback object>"),
   log (CallPredictProba [high_risk_employee])
     (log (CallPredict [high_risk_employee])
        (loaded (label_pipeline ["Yes"] (inr [[0.3; 0.7]%float]))))).
Proof. reflexivity. Qed.

Example test_prediction_tolist_raises :
  fst (test_prediction
         (loaded (list_rows_pipeline [1] [[0.3; 0.7]%float]))) =
  Ok (TestError "'list' object has no attribute 'tolist'"
        "<traceback object>").
Proof. reflexivity. Qed.

Example test_prediction_predict_raises :
  fst (test_prediction (loaded (broken_pipeline "bad input"))) =
  Ok (TestError "bad input" "<traceback object>").
Proof. reflexivity. Qed.

Example test_prediction_proba_raises :
  fst (test_prediction (loaded (broken_proba_pipeline [1] "boom"))) =
  Ok (TestError "boom" "<traceback object>").
Proof. reflexivity. Qed.

(** Unlike [/predict], this route has no default for a predictor without
    [predict_proba]: the missing attribute is reported as an error. *)
Example test_prediction_without_predict_proba :
  fst (test_prediction (loaded (no_proba_pipeline [1]))) =
  Ok (TestError "'LinearSVC' object has no attribute 'predict_proba'"
        "<traceback object>").
Proof. reflexivity. Qed.

Example test_prediction_report :
  fst (test_prediction (loaded (const_pipeline [1] [[0.2; 0.8]%float]))) =
  Ok (TestReport high_risk_employee 1 [0.2; 0.8]%float
        "<class 'sklearn.pipeline.Pipeline'>" true).
Proof. reflexivity. Qed.

Example test_prediction_not_loaded :
  test_prediction degraded = (HTTPException 503 "Model not loaded", degraded).
Proof. reflexivity. Qed.

(** * Further properties of [main.py] *)

(** ** Vocabulary *)

(** The tiers in increasing order: "Low", "Medium", "High". *)
Definition confidence_rank (c : string) : nat :=
  if String.eqb c "High" then 2%nat
  else if String.eqb c "Medium" then 1%nat
  else 0%nat.

(** A computation whose result does not depend on the log of earlier
    predictor calls. *)
Definition log_blind {A} (m : Py A) : Prop :=
  forall w1 w2, globals w1 = globals w2 -> fst (m w1) = fst (m w2).

(** ** The order on binary64 is transitive *)

Lemma SFleb_trans (x y z : spec_float) :
  SFleb x y = true -> SFleb y z = true -> SFleb x z = true.
Proof.
  unfold SFleb.
  destruct x as [[]|[]| |[] mx ex], y as [[]|[]| |[] my ey],
    z as [[]|[]| |[] mz ez]; simpl; try congruence.
  - destruct (Z.compare_spec ex ey), (Z.compare_spec ey ez),
      (Z.compare_spec ex ez); simpl; try congruence; try lia; subst.
    change (PosDef.Pos.compare_cont Eq mx my) with (Pos.compare mx my).
    change (PosDef.Pos.compare_cont Eq my mz) with (Pos.compare my mz).
    change (PosDef.Pos.compare_cont Eq mx mz) with (Pos.compare mx mz).
    destruct (Pos.compare_spec mx my), (Pos.compare_spec my mz),
      (Pos.compare_spec mx mz); simpl; try congruence; lia.
  - destruct (Z.compare_spec ex ey), (Z.compare_spec ey ez),
      (Z.compare_spec ex ez); simpl; try congruence; try lia; subst.
    change (PosDef.Pos.compare_cont Eq mx my) with (Pos.compare mx my).
    change (PosDef.Pos.compare_cont Eq my mz) with (Pos.compare my mz).
    change (PosDef.Pos.compare_cont Eq mx mz) with (Pos.compare mx mz).
    destruct (Pos.compare_spec mx my), (Pos.compare_spec my mz),
      (Pos.compare_spec mx mz); simpl; try congruence; lia.
Qed.

Lemma leb_trans (x y z : float) :
  (x <=? y)%float = true -> (y <=? z)%float = true ->
  (x <=? z)%float = true.
Proof. rewrite !leb_spec. apply SFleb_trans. Qed.

Lemma leb_0_6_0_8 : (0.6 <=? 0.8)%float = true.
Proof. reflexivity. Qed.

(** Reaching the upper threshold implies reaching the lower one. *)
Lemma leb_0_8_leb_0_6 (p : float) :
  (0.8 <=? p)%float = true -> (0.6 <=? p)%float = true.
Proof. intros H. exact (leb_trans 0.6 0.8 p leb_0_6_0_8 H). Qed.

(** The tier as a function of the two threshold tests. *)
Lemma confidence_level_cases (p : float) :
  ((0.8 <=? p)%float = true /\ confidence_level p = "High") \/
  ((0.8 <=? p)%float = false /\ (0.6 <=? p)%float = true /\
   confidence_level p = "Medium") \/
  ((0.8 <=? p)%float = false /\ (0.6 <=? p)%float = false /\
   confidence_level p = "Low").
Proof.
  unfold confidence_level.
  destruct (0.8 <=? p)%float; [left; auto|].
  destruct (0.6 <=? p)%float; [right; left; auto|right; right; auto].
Qed.

Lemma confidence_level_monotone (p q : float) :
  (p <=? q)%float = true ->
  (confidence_rank (confidence_level p) <=
   confidence_rank (confidence_level q))%nat.
Proof.
  intros Hpq.
  destruct (confidence_level_cases p)
    as [[Hp ->]|[(Hp8 & Hp6 & ->)|(_ & _ & ->)]].
  - pose proof (leb_trans 0.8 p q Hp Hpq) as Hq.
    rewrite (confidence_level_high q Hq). apply le_n.
  - pose proof (leb_trans 0.6 p q Hp6 Hpq) as Hq.
    destruct (confidence_level_cases q)
      as [[_ ->]|[(_ & _ & ->)|(_ & Hq6 & _)]].
    + apply Nat.leb_le. reflexivity.
    + apply le_n.
    + rewrite Hq in Hq6. discriminate Hq6.
  - apply Nat.le_0_l.
Qed.

(** ** What the routes agree on *)

(** With the model loaded, [/predict] never answers 503. *)
Lemma predict_attrition_loaded_not_503 (data : EmployeeInput) (w : World)
      (detail : string) :
  model_loaded (globals w) = true ->
  fst (predict_attrition data w) <> HTTPException 503 detail.
Proof.
  intros Hl. rewrite (predict_attrition_loaded data w Hl).
  destruct (predict_body data w) as [[e|r] w1]; simpl; discriminate.
Qed.

(** X1. [/health] and [/] always answer normally and report the same
    flag; the status is "healthy" exactly when the flag is true; and the
    flag is false exactly when [/predict] answers 503, and exactly when
    [/test-prediction] answers 503. *)
Theorem health_agrees_with_the_gates (data : EmployeeInput) (w : World) :
  exists hr rr,
    health_check w = (Ok hr, w) /\
    root w = (Ok rr, w) /\
    root_model_loaded rr = health_model_loaded hr /\
    (status hr = "healthy" <-> health_model_loaded hr = true) /\
    (message hr = "Model loaded successfully" <->
     health_model_loaded hr = true) /\
    (health_model_loaded hr = false <->
     exists d, fst (predict_attrition data w) = HTTPException 503 d) /\
    (health_model_loaded hr = false <->
     exists d, fst (test_prediction w) = HTTPException 503 d).
Proof.
  unfold health_check, root. do 2 eexists.
  split; [reflexivity|]. split; [reflexivity|]. simpl.
  split; [reflexivity|].
  destruct (model_loaded (globals w)) eqn:Hl.
  - split; [split; reflexivity|]. split; [split; reflexivity|].
    split; (split; [discriminate|]); intros [d Hd].
    + elim (predict_attrition_loaded_not_503 data w d Hl Hd).
    + unfold test_prediction in Hd. rewrite Hl in Hd. simpl in Hd.
      destruct (test_body w) as [[e|r] w1]; discriminate.
  - split; [split; discriminate|]. split; [split; discriminate|].
    split; (split; [intros _|reflexivity]).
    + rewrite (predict_attrition_unloaded data w Hl). eexists. reflexivity.
    + unfold test_prediction. rewrite Hl. eexists. reflexivity.
Qed.

(** ** The error answers of [/predict] *)

(** The probability step calls [predict_proba] exactly when the predictor
    has the attribute. *)
Lemma get_probability_calls (df : DataFrame) (w : World) :
  calls (snd (get_probability df w)) =
  ((if hasattr_predict_proba (pipeline (globals w))
    then [CallPredictProba df] else []) ++ calls w)%list.
Proof.
  unfold hasattr_predict_proba. py_unfold.
  destruct (predict_proba (pipeline (globals w))) as [g|]; [|reflexivity].
  destruct (g df) as [e|[|[|p0 [|p1 more]] rows]]; reflexivity.
Qed.

(** X2. An HTTP error from [/predict] is one of two: 503 with the world
    untouched, exactly when the flag is false; or 500, when the flag is
    true, with the message of an exception raised either by the class step
    [pipeline.predict(input_df)[0]] (then [predict_proba] has not been
    called) or by [int(pred)] (then [predict] has been called, and
    [predict_proba] too if the predictor has it). *)
Theorem predict_error_is_503_or_500 (data : EmployeeInput) (w w' : World)
        (code : Z) (detail : string) :
  predict_attrition data w = (HTTPException code detail, w') ->
  (model_loaded (globals w) = false /\ code = 503 /\ w' = w) \/
  (model_loaded (globals w) = true /\ code = 500 /\
   globals w' = globals w /\
   exists e,
     detail = "Prediction error: " ++ exc_str e /\
     ((prediction_raises (pipeline (globals w)) [dict data] e /\
       (calls w' = calls w \/
        calls w' = CallPredict [dict data] :: calls w)) \/
      (conversion_raises (pipeline (globals w)) [dict data] e /\
       calls w' =
         ((if hasattr_predict_proba (pipeline (globals w))
           then [CallPredictProba [dict data]] else [])
          ++ CallPredict [dict data] :: calls w)%list))).
Proof.
  destruct (model_loaded (globals w)) eqn:Hl.
  - intros H. right. split; [reflexivity|].
    rewrite (predict_attrition_loaded data w Hl) in H.
    pose proof (keeps_predict_body data w) as Hkeep.
    destruct (predict_body data w) as [[e|r] w1] eqn:Hb; [|discriminate].
    simpl in Hkeep.
    assert (Hcode : code = 500) by (injection H; auto).
    assert (Hdetail : detail = "Prediction error: " ++ exc_str e)
      by (injection H; auto).
    apply (f_equal snd) in H. simpl in H. subst w1.
    split; [exact Hcode|]. split; [exact Hkeep|].
    exists e. split; [exact Hdetail|].
    apply predict_body_raises in Hb.
    destruct Hb as [Hstep|(pred & w2 & p & Hstep & Hp & Hint)].
    + left. split.
      * apply predict_step_raises_iff. now exists w'.
      * apply (predict_step_raises _ _ _ _ Hstep).
    + right. apply predict_step_ok in Hstep.
      destruct Hstep as (f & rest & Hf & Hdf & ->). split.
      * now apply raises_in_int with f pred rest.
      * pose proof (get_probability_calls [dict data]
                      (log (CallPredict [dict data]) w)) as Hc.
        rewrite Hp in Hc. exact Hc.
  - rewrite (predict_attrition_unloaded data w Hl).
    intros H. injection H as <- _ <-. left. auto.
Qed.

Lemma predict_error_is_503_or_500_witness :
  predict_attrition demo_input
    (loaded (label_pipeline ["Yes"] (inr [[0.3; 0.7]%float]))) =
    (HTTPException 500
       "Prediction error: invalid literal for int() with base 10: 'Yes'",
     after_predict demo_input
       (loaded (label_pipeline ["Yes"] (inr [[0.3; 0.7]%float])))) /\
  globals (after_predict demo_input
             (loaded (label_pipeline ["Yes"] (inr [[0.3; 0.7]%float])))) =
  globals (loaded (label_pipeline ["Yes"] (inr [[0.3; 0.7]%float]))).
Proof.
  split; [reflexivity|].
  destruct (predict_error_is_503_or_500 demo_input
              (loaded (label_pipeline ["Yes"] (inr [[0.3; 0.7]%float])))
              (after_predict demo_input
                 (loaded (label_pipeline ["Yes"] (inr [[0.3; 0.7]%float]))))
              500
              "Prediction error: invalid literal for int() with base 10: 'Yes'"
              eq_refl)
    as [(Hf & _)|(_ & _ & Hg & _)]; [discriminate Hf | exact Hg].
Defined.

(** The two kinds of 500: before and after the probability step. *)
Example predict_500_before_proba :
  predict_attrition demo_input (loaded py_None) =
  (HTTPException 500
     "Prediction error: 'NoneType' object has no attribute 'predict'",
   loaded py_None).
Proof. reflexivity. Qed.

(** ** How a successful [/predict] uses the predictor *)

Lemma predict_body_log (data : EmployeeInput) (w w' : World)
      (r : PredictionResponse) :
  predict_body data w = (inr r, w') ->
  globals w' = globals w /\
  calls w' =
    ((if hasattr_predict_proba (pipeline (globals w))
      then [CallPredictProba [dict data]] else [])
     ++ CallPredict [dict data] :: calls w)%list.
Proof.
  unfold hasattr_predict_proba. py_unfold.
  destruct (predict (pipeline (globals w))) as [f|]; [|discriminate].
  destruct (f [dict data]) as [e|[|pred rest]]; simpl; try discriminate.
  destruct (predict_proba (pipeline (globals w))) as [g|].
  - destruct (g [dict data]) as [e|[|[|p0 [|p1 more]] rows]]; simpl;
      (destruct (scalar_int pred) as [e'|c]; [discriminate|]);
      intros H; injection H as _ <-; auto.
  - simpl. destruct (scalar_int pred) as [e'|c]; [discriminate|].
    intros H. injection H as _ <-. auto.
Qed.

(** X3. A successful [/predict] has called [predict] exactly once, then
    [predict_proba] exactly once if the predictor has that attribute and
    not at all otherwise; both calls received the same one-row frame built
    from the request, and the globals are as before. *)
Theorem predict_success_call_sequence (data : EmployeeInput) (w w' : World)
        (r : PredictionResponse) :
  predict_attrition data w = (Ok r, w') ->
  globals w' = globals w /\
  calls w' =
    ((if hasattr_predict_proba (pipeline (globals w))
      then [CallPredictProba [dict data]] else [])
     ++ CallPredict [dict data] :: calls w)%list /\
  count_predict (calls w') = S (count_predict (calls w)).
Proof.
  intros H. apply predict_attrition_ok in H. destruct H as [_ H].
  destruct (predict_body_log data w w' r H) as [Hg Hc].
  split; [exact Hg|]. split; [exact Hc|].
  rewrite Hc. destruct (hasattr_predict_proba (pipeline (globals w)));
    reflexivity.
Qed.

Lemma predict_success_call_sequence_witness :
  let w := loaded (no_proba_pipeline [0]) in
  let w' := log (CallPredict [dict demo_input]) w in
  let r := {| prediction := "No"; probability := 0.5%float;
              confidence := "Low" |} in
  predict_attrition demo_input w = (Ok r, w') /\
  calls w' = [CallPredict [dict demo_input]] /\
  count_predict (calls w') = 1%nat.
Proof.
  intros w w' r. split; [reflexivity|].
  destruct (predict_success_call_sequence demo_input w w' r eq_refl)
    as (_ & Hc & Hn).
  split; [exact Hc | exact Hn].
Defined.

(** ** The shape of a successful answer *)

(** X4. In a successful answer the label is "Yes" or "No" and the
    confidence is one of "High", "Medium", "Low"; each tier determines the
    threshold tests: "High" exactly when [0.8 <= probability], "Low"
    exactly when [0.6 <= probability] fails (NaN included), "Medium"
    exactly in between. *)
Theorem predict_answer_shape (data : EmployeeInput) (w w' : World)
        (r : PredictionResponse) :
  predict_attrition data w = (Ok r, w') ->
  (prediction r = "Yes" \/ prediction r = "No") /\
  (confidence r = "High" \/ confidence r = "Medium" \/ confidence r = "Low") /\
  (confidence r = "High" <-> (0.8 <=? probability r)%float = true) /\
  (confidence r = "Medium" <->
   (0.6 <=? probability r)%float = true /\
   (0.8 <=? probability r)%float = false) /\
  (confidence r = "Low" <-> (0.6 <=? probability r)%float = false).
Proof.
  intros H. apply predict_attrition_ok in H. destruct H as [_ H].
  apply predict_body_ok in H.
  destruct H as (f & pred & rest & c & p & _ & _ & _ & _ & ->). simpl.
  split; [destruct (c =? 1); auto|].
  destruct (confidence_level_cases p)
    as [[H8 ->]|[(H8 & H6 & ->)|(H8 & H6 & ->)]].
  - pose proof (leb_0_8_leb_0_6 p H8) as H6.
    split; [auto|]. split; [tauto|].
    split; (split; [discriminate|]).
    + intros [_ Hc]. rewrite H8 in Hc. discriminate.
    + intros Hc. rewrite H6 in Hc. discriminate.
  - split; [auto|]. split; [split; [discriminate|]|].
    + intros Hc. rewrite H8 in Hc. discriminate.
    + split; [tauto|]. split; [discriminate|].
      intros Hc. rewrite H6 in Hc. discriminate.
  - split; [auto|]. split; [split; [discriminate|]|].
    + intros Hc. rewrite H8 in Hc. discriminate.
    + split; [|tauto]. split; [discriminate|].
      intros [Hc _]. rewrite H6 in Hc. discriminate.
Qed.

Lemma predict_answer_shape_witness :
  let w := loaded (const_pipeline [0] [[nan; nan]%float]) in
  let r := {| prediction := "No"; probability := nan; confidence := "Low" |} in
  predict_attrition demo_input w = (Ok r, after_predict demo_input w) /\
  (confidence r = "Low" <-> (0.6 <=? probability r)%float = false).
Proof.
  intros w r. split; [reflexivity|].
  exact (proj2 (proj2 (proj2 (proj2
           (predict_answer_shape demo_input w (after_predict demo_input w)
              r eq_refl))))).
Defined.

(** X5. Confidence is monotone in the probability: of two successful
    answers, the one with the larger probability has at least the tier of
    the other, whatever their labels and predictors. *)
Theorem predict_confidence_monotone (d1 d2 : EmployeeInput)
        (w1 w1' w2 w2' : World) (r1 r2 : PredictionResponse) :
  predict_attrition d1 w1 = (Ok r1, w1') ->
  predict_attrition d2 w2 = (Ok r2, w2') ->
  (probability r1 <=? probability r2)%float = true ->
  (confidence_rank (confidence r1) <= confidence_rank (confidence r2))%nat.
Proof.
  intros H1 H2.
  apply predict_attrition_ok in H1. destruct H1 as [_ H1].
  apply predict_attrition_ok in H2. destruct H2 as [_ H2].
  apply predict_body_ok in H1. apply predict_body_ok in H2.
  destruct H1 as (f1 & s1 & rest1 & c1 & p1 & _ & _ & _ & _ & ->).
  destruct H2 as (f2 & s2 & rest2 & c2 & p2 & _ & _ & _ & _ & ->). simpl.
  apply confidence_level_monotone.
Qed.

Lemma predict_confidence_monotone_witness :
  let wa := loaded (const_pipeline [0] [[0.35; 0.65]%float]) in
  let wb := loaded (const_pipeline [1] [[0.1; 0.9]%float]) in
  let ra := {| prediction := "No"; probability := 0.65%float;
               confidence := "Medium" |} in
  let rb := {| prediction := "Yes"; probability := 0.9%float;
               confidence := "High" |} in
  predict_attrition demo_input wa = (Ok ra, after_predict demo_input wa) /\
  predict_attrition demo_input wb = (Ok rb, after_predict demo_input wb) /\
  (confidence_rank (confidence ra) <= confidence_rank (confidence rb))%nat.
Proof.
  intros wa wb ra rb. split; [reflexivity|]. split; [reflexivity|].
  exact (predict_confidence_monotone demo_input demo_input
           wa (after_predict demo_input wa) wb (after_predict demo_input wb)
           ra rb eq_refl eq_refl eq_refl).
Defined.

(** ** Requests are independent of each other *)

Lemma blind_ret {A} (a : A) : log_blind (ret a).
Proof. intros w1 w2 _. reflexivity. Qed.

Lemma blind_raise {A} (e : PyExc) : log_blind (@raise A e).
Proof. intros w1 w2 _. reflexivity. Qed.

Lemma blind_lift {A} (r : result A) : log_blind (lift r).
Proof. intros w1 w2 _. reflexivity. Qed.

Lemma blind_read_global {A} (f : Globals -> A) : log_blind (read_global f).
Proof. intros w1 w2 H. unfold read_global. simpl. now rewrite H. Qed.

Lemma blind_tell (ev : event) : log_blind (tell ev).
Proof. intros w1 w2 _. reflexivity. Qed.

Lemma blind_index {A} (xs : list A) (i : nat) : log_blind (index xs i).
Proof. intros w1 w2 _. unfold index. now destruct (nth_error xs i). Qed.

Lemma blind_bind {A B} (m : Py A) (k : A -> Py B) :
  keeps_globals m -> log_blind m -> (forall a, log_blind (k a)) ->
  log_blind (bind m k).
Proof.
  intros Hkeep Hm Hk w1 w2 Hg. unfold bind.
  pose proof (Hm w1 w2 Hg) as Hfst.
  pose proof (Hkeep w1) as Hk1. pose proof (Hkeep w2) as Hk2.
  destruct (m w1) as [[e1|a1] v1], (m w2) as [[e2|a2] v2]; simpl in *;
    try discriminate.
  - now injection Hfst as <-.
  - injection Hfst as <-. apply Hk. congruence.
Qed.

Lemma blind_try_except {A} (m : Py A) (h : PyExc -> Py A) :
  keeps_globals m -> log_blind m -> (forall e, log_blind (h e)) ->
  log_blind (try_except m h).
Proof.
  intros Hkeep Hm Hh w1 w2 Hg. unfold try_except.
  pose proof (Hm w1 w2 Hg) as Hfst.
  pose proof (Hkeep w1) as Hk1. pose proof (Hkeep w2) as Hk2.
  destruct (m w1) as [[e1|a1] v1], (m w2) as [[e2|a2] v2]; simpl in *;
    try discriminate.
  - injection Hfst as <-. apply Hh. congruence.
  - exact Hfst.
Qed.

Lemma blind_call_predict (df : DataFrame) : log_blind (call_predict df).
Proof.
  intros w1 w2 Hg. unfold call_predict. py_unfold. simpl. rewrite Hg.
  now destruct (predict (pipeline (globals w2))).
Qed.

Lemma blind_call_predict_proba (df : DataFrame) :
  log_blind (call_predict_proba df).
Proof.
  intros w1 w2 Hg. unfold call_predict_proba. py_unfold. simpl. rewrite Hg.
  now destruct (predict_proba (pipeline (globals w2))).
Qed.

Lemma blind_get_probability (df : DataFrame) : log_blind (get_probability df).
Proof.
  unfold get_probability. apply blind_try_except.
  - auto 10 with frame.
  - apply blind_bind; [auto with frame | apply blind_call_predict_proba|].
    intros rows. apply blind_bind; [auto with frame | apply blind_index|].
    intros row. destruct (1 <? List.length row)%nat; apply blind_index.
  - intros e. apply blind_ret.
Qed.

Lemma blind_int_ (x : PyScalar) : log_blind (int_ x).
Proof. unfold int_. apply blind_lift. Qed.

Lemma blind_tolist (row : list float) : log_blind (tolist row).
Proof.
  intros w1 w2 Hg. unfold tolist. py_unfold. simpl. rewrite Hg.
  now destruct (row_tolist_error (pipeline (globals w2))).
Qed.

Lemma blind_predict_body (data : EmployeeInput) :
  log_blind (predict_body data).
Proof.
  unfold predict_body.
  apply blind_bind; [auto with frame | apply blind_call_predict|].
  intros preds. apply blind_bind; [auto with frame | apply blind_index|].
  intros pred.
  apply blind_bind; [auto with frame | apply blind_get_probability|].
  intros p. apply blind_bind; [auto with frame | apply blind_int_|].
  intros c. apply blind_ret.
Qed.

Lemma blind_test_body : log_blind test_body.
Proof.
  unfold test_body.
  apply blind_bind; [auto with frame | apply blind_call_predict|].
  intros preds. apply blind_bind; [auto with frame | apply blind_index|].
  intros pred.
  apply blind_bind; [auto with frame | apply blind_call_predict_proba|].
  intros rows. apply blind_bind; [auto with frame | apply blind_index|].
  intros row. apply blind_bind; [auto with frame | apply blind_int_|].
  intros c. apply blind_bind; [auto with frame | apply blind_tolist|].
  intros l.
  apply blind_bind; [auto with frame | apply blind_read_global|].
  intros p. apply blind_ret.
Qed.

(** The answer of a route depends on the globals only. *)
Lemma app_log_blind (rq : request) (w1 w2 : World) :
  globals w1 = globals w2 -> fst (app rq w1) = fst (app rq w2).
Proof.
  intros Hg. destruct rq as [| | |data|]; simpl.
  - now rewrite Hg.
  - now rewrite Hg.
  - reflexivity.
  - unfold predict_attrition. rewrite Hg.
    destruct (negb (model_loaded (globals w2))); [reflexivity|].
    pose proof (blind_predict_body data w1 w2 Hg) as H.
    destruct (predict_body data w1) as [[e1|r1] v1],
      (predict_body data w2) as [[e2|r2] v2]; simpl in *;
      try discriminate; now injection H as <-.
  - unfold test_prediction. rewrite Hg.
    destruct (negb (model_loaded (globals w2))); [reflexivity|].
    pose proof (blind_test_body w1 w2 Hg) as H.
    destruct (test_body w1) as [[e1|r1] v1],
      (test_body w2) as [[e2|r2] v2]; simpl in *;
      try discriminate; now injection H as <-.
Qed.

(** Requests do not influence each other: in any sequence, each
    request gets the answer it would get as the only request after
    start-up (the predictor being a function of its input). *)
Lemma serve_answers_each_request_alone (rqs : list request) (w : World) :
  fst (serve rqs w) = map (fun rq => fst (app rq w)) rqs.
Proof.
  revert w. induction rqs as [|rq rest IH]; intros w; simpl; [reflexivity|].
  pose proof (app_globals rq w) as Hg.
  destruct (app rq w) as [r w1] eqn:Happ. simpl in Hg.
  specialize (IH w1). destruct (serve rest w1) as [rs w2]. simpl in *.
  rewrite IH. f_equal.
  apply map_ext. intros rq'. now apply app_log_blind.
Qed.

Example repeated_predict_same_answer :
  fst (serve [POST_predict demo_input; GET_health; POST_predict demo_input]
         (loaded (const_pipeline [1] [[0.3; 0.7]%float]))) =
  [ PredictR (Ok {| prediction := "Yes"; probability := 0.7%float;
                    confidence := "Medium" |});
    HealthR (Ok {| status := "healthy"; health_model_loaded := true;
                   message := "Model loaded successfully" |});
    PredictR (Ok {| prediction := "Yes"; probability := 0.7%float;
                    confidence := "Medium" |}) ].
Proof. reflexivity. Qed.

(** ** The predictor is called in a fixed pattern *)

(** Logs (most recent call first) in which every [predict_proba] call
    directly follows a [predict] call on the same frame. *)
Inductive paired : list event -> Prop :=
| paired_nil : paired []
| paired_predict df l : paired l -> paired (CallPredict df :: l)
| paired_both df l :
    paired l -> paired (CallPredictProba df :: CallPredict df :: l).

Definition is_post (rq : request) : bool :=
  match rq with
  | POST_predict _ | POST_test_prediction => true
  | _ => false
  end.

Fixpoint count_post (rqs : list request) : nat :=
  match rqs with
  | [] => 0%nat
  | rq :: rest => ((if is_post rq then 1 else 0) + count_post rest)%nat
  end.

(** The frame a request hands to the predictor, if it is a POST. *)
Definition frame_of (rq : request) : option DataFrame :=
  match rq with
  | POST_predict data => Some [dict data]
  | POST_test_prediction => Some [high_risk_employee]
  | _ => None
  end.

(** What one request may add to the log: nothing for a GET; for a POST
    nothing, or one [predict] call, or one [predict] call followed by one
    [predict_proba] call, on the frame of the request. *)
Definition request_calls (rq : request) (new : list event) : Prop :=
  match frame_of rq with
  | None => new = []
  | Some df =>
      new = [] \/ new = [CallPredict df] \/
      new = [CallPredictProba df; CallPredict df]
  end.

(** The log after the [try] body of [/predict], whatever its result. *)
Lemma predict_body_log_cases (data : EmployeeInput) (w : World) :
  let l := calls (snd (predict_body data w)) in
  l = calls w \/
  l = CallPredict [dict data] :: calls w \/
  l = CallPredictProba [dict data] :: CallPredict [dict data] :: calls w.
Proof.
  py_unfold.
  destruct (predict (pipeline (globals w))) as [f|]; [|left; reflexivity].
  destruct (f [dict data]) as [e|[|pred rest]]; simpl; auto.
  destruct (predict_proba (pipeline (globals w))) as [g|]; simpl.
  - destruct (g [dict data]) as [e|[|[|p0 [|p1 more]] rows]]; simpl;
      destruct (scalar_int pred); simpl; auto.
  - destruct (scalar_int pred); simpl; auto.
Qed.

Lemma test_body_log_cases (w : World) :
  let l := calls (snd (test_body w)) in
  l = calls w \/
  l = CallPredict [high_risk_employee] :: calls w \/
  l = CallPredictProba [high_risk_employee]
        :: CallPredict [high_risk_employee] :: calls w.
Proof.
  py_unfold.
  destruct (predict (pipeline (globals w))) as [f|]; [|left; reflexivity].
  destruct (f [high_risk_employee]) as [e|[|pred rest]]; simpl; auto.
  destruct (predict_proba (pipeline (globals w))) as [g|]; simpl; auto.
  destruct (g [high_risk_employee]) as [e|[|row rows]]; simpl; auto.
  destruct (scalar_int pred); simpl; auto.
  destruct (row_tolist_error (pipeline (globals w))); simpl; auto.
Qed.

(** What one request adds to the log. *)
Lemma app_log_cases (rq : request) (w : World) :
  exists new,
    calls (snd (app rq w)) = (new ++ calls w)%list /\
    request_calls rq new /\
    (model_loaded (globals w) = false -> new = []).
Proof.
  assert (Hshape : forall df l,
    l = calls w \/ l = CallPredict df :: calls w \/
    l = CallPredictProba df :: CallPredict df :: calls w ->
    exists new, l = (new ++ calls w)%list /\
                (new = [] \/ new = [CallPredict df] \/
                 new = [CallPredictProba df; CallPredict df])).
  { intros df l [ -> | [ -> | -> ] ].
    - exists []. auto.
    - exists [CallPredict df]. auto.
    - exists [CallPredictProba df; CallPredict df]. auto. }
  unfold request_calls.
  destruct rq as [| | |data|]; simpl;
    try (exists []; split; [reflexivity|]; split; reflexivity).
  - unfold predict_attrition.
    destruct (model_loaded (globals w)) eqn:Hl; simpl;
      [|exists []; split; [reflexivity|]; split; [left|]; reflexivity].
    pose proof (predict_body_log_cases data w) as Hc. simpl in Hc.
    destruct (Hshape _ _ Hc) as (new & Hnew & Hp).
    exists new.
    destruct (predict_body data w) as [[e|r] w1]; simpl in *;
      (split; [exact Hnew|]); (split; [exact Hp | discriminate]).
  - unfold test_prediction.
    destruct (model_loaded (globals w)) eqn:Hl; simpl;
      [|exists []; split; [reflexivity|]; split; [left|]; reflexivity].
    pose proof (test_body_log_cases w) as Hc. simpl in Hc.
    destruct (Hshape _ _ Hc) as (new & Hnew & Hp).
    exists new.
    destruct (test_body w) as [[e|r] w1]; simpl in *;
      (split; [exact Hnew|]); (split; [exact Hp | discriminate]).
Qed.

Lemma request_calls_paired (rq : request) (new : list event) :
  request_calls rq new ->
  paired new /\ (List.length new <= if is_post rq then 2 else 0)%nat.
Proof.
  unfold request_calls.
  destruct rq; simpl;
    try (intros ->; split; [constructor | simpl; lia]);
    intros [ -> | [ -> | -> ] ]; (split; [repeat constructor | simpl; lia]).
Qed.

Lemma paired_app (l1 l2 : list event) :
  paired l1 -> paired l2 -> paired (l1 ++ l2).
Proof.
  intros H1 H2. induction H1; simpl; [exact H2| |]; constructor; assumption.
Qed.

Lemma paired_counts (l : list event) :
  paired l -> (count_predict_proba l <= count_predict l)%nat.
Proof. intros H. induction H; simpl; lia. Qed.

Lemma serve_log (rqs : list request) (w : World) :
  exists new,
    calls (snd (serve rqs w)) = (new ++ calls w)%list /\
    paired new /\
    (List.length new <= 2 * count_post rqs)%nat /\
    (model_loaded (globals w) = false -> new = []).
Proof.
  revert w. induction rqs as [|rq rest IH]; intros w; simpl.
  - exists []. split; [reflexivity|]. split; [constructor|].
    split; [simpl; lia | reflexivity].
  - destruct (app_log_cases rq w) as (n1 & Hn1 & Hr1 & Hoff1).
    destruct (request_calls_paired rq n1 Hr1) as [Hp1 Hl1].
    pose proof (app_globals rq w) as Hg.
    destruct (app rq w) as [r w1]. simpl in Hn1, Hg.
    destruct (IH w1) as (n2 & Hn2 & Hp2 & Hl2 & Hoff2).
    destruct (serve rest w1) as [rs w2]. simpl in *.
    exists (n2 ++ n1)%list. repeat split.
    + rewrite Hn2, Hn1. now rewrite app_assoc.
    + now apply paired_app.
    + rewrite length_app. destruct (is_post rq); lia.
    + intros Hoff. rewrite Hg in Hoff2.
      now rewrite (Hoff2 Hoff), (Hoff1 Hoff).
Qed.

(** X6. The predictor is called in a fixed pattern.  At any moment of a
    run (after start-up and any requests [before]), the next request [rq]
    adds to the log: nothing if it is a GET; if it is a POST, nothing, or
    one [predict] call, or one [predict] call followed by one
    [predict_proba] call, each on the frame of that request; and nothing
    at all when the load failed.  Hence in the log of the run every
    [predict_proba] call directly follows a [predict] call on the same
    frame, and there are at most two calls per POST request served. *)
Theorem predictor_call_discipline (env : Env) (before : list request)
        (rq : request) :
  let w := snd (serve before (startup env)) in
  (exists new,
      calls (snd (app rq w)) = (new ++ calls w)%list /\
      request_calls rq new /\
      (model_loaded (globals (startup env)) = false -> new = [])) /\
  paired (calls w) /\
  (count_predict_proba (calls w) <= count_predict (calls w))%nat /\
  (List.length (calls w) <= 2 * count_post before)%nat /\
  (model_loaded (globals (startup env)) = false -> calls w = []).
Proof.
  simpl. split.
  - destruct (app_log_cases rq (snd (serve before (startup env))))
      as (new & Hnew & Hr & Hoff).
    exists new. split; [exact Hnew|]. split; [exact Hr|].
    intros Hflag. apply Hoff. now rewrite serve_globals.
  - destruct (serve_log before (startup env))
      as (new & Hnew & Hp & Hlen & Hoff).
    assert (Hstart : calls (startup env) = []).
    { unfold startup. now destruct (load_model env py_None). }
    rewrite Hstart, app_nil_r in Hnew. rewrite Hnew.
    split; [exact Hp|]. split; [now apply paired_counts|].
    split; [exact Hlen | exact Hoff].
Qed.

(** A GET between two POSTs adds nothing; each POST adds its own calls. *)
Example call_log_request_by_request :
  let w0 := startup (env_with (const_pipeline [1] [[0.2; 0.8]%float])) in
  let w1 := snd (app (POST_predict demo_input) w0) in
  let w2 := snd (app GET_health w1) in
  let w3 := snd (app POST_test_prediction w2) in
  calls w1 = [ CallPredictProba [dict demo_input];
               CallPredict [dict demo_input] ] /\
  calls w2 = calls w1 /\
  calls w3 = (CallPredictProba [high_risk_employee]
              :: CallPredict [high_risk_employee] :: calls w2).
Proof. repeat split. Qed.

Example call_log_of_a_run :
  calls (snd (serve [POST_predict demo_input; GET_sample_data;
                     POST_test_prediction]
                (startup (env_with (no_proba_pipeline [1]))))) =
  [ CallPredict [high_risk_employee]; CallPredict [dict demo_input] ].
Proof. reflexivity. Qed.

(** ** The globals after start-up *)

Lemma startup_cases (env : Env) :
  (startup env = degraded /\
   (path_exists env pipeline_path = false \/
    exists e, joblib_load env pipeline_path = inl e)) \/
  (exists p, startup env = loaded p /\
             path_exists env pipeline_path = true /\
             joblib_load env pipeline_path = inr p).
Proof.
  unfold startup, load_model, degraded, loaded.
  destruct (path_exists env pipeline_path); simpl.
  - destruct (joblib_load env pipeline_path) as [e|p] eqn:Hj.
    + left. split; [reflexivity|]. right. now exists e.
    + right. now exists p.
  - left. split; [reflexivity|]. now left.
Qed.

(** X7. At every moment of a run the two globals fit together: either
    the flag is false and [pipeline] is still [None] (the file was missing
    or did not load), or the flag is true and [pipeline] is the very object
    [joblib.load] returned.  A missing file is never handed to
    [joblib.load]: its answer does not matter then. *)
Theorem globals_fit_together (env : Env) (rqs : list request) :
  let g := globals (snd (serve rqs (startup env))) in
  ((g = {| pipeline := py_None; model_loaded := false |} /\
    (path_exists env pipeline_path = false \/
     exists e, joblib_load env pipeline_path = inl e)) \/
   (exists p, g = {| pipeline := p; model_loaded := true |} /\
              path_exists env pipeline_path = true /\
              joblib_load env pipeline_path = inr p)) /\
  (path_exists env pipeline_path = false ->
   g = {| pipeline := py_None; model_loaded := false |}).
Proof.
  simpl. rewrite serve_globals.
  destruct (startup_cases env) as [[-> H]|(p & -> & Hp & Hj)].
  - split; [|reflexivity]. left. split; [reflexivity | exact H].
  - split.
    + right. exists p. split; [reflexivity|]. split; assumption.
    + intros Hn. rewrite Hn in Hp. discriminate Hp.
Qed.

(** An artifact that exists on disk but is not consulted: the path test
    comes first. *)
Example missing_file_ignores_loader :
  startup {| path_exists := fun _ => false;
             joblib_load := fun _ => inr (const_pipeline [1] []) |} = degraded.
Proof. reflexivity. Qed.

(** ** What [/test-prediction] reports *)

Lemma test_body_ok (w w' : World) (body : TestBody) :
  test_body w = (inr body, w') ->
  exists f pred rest g row rows c,
    predict (pipeline (globals w)) = Some f /\
    f [high_risk_employee] = inr (pred :: rest) /\
    predict_proba (pipeline (globals w)) = Some g /\
    g [high_risk_employee] = inr (row :: rows) /\
    scalar_int pred = inr c /\
    row_tolist_error (pipeline (globals w)) = None /\
    body = TestReport high_risk_employee c row
             (cls_repr (pipeline (globals w))) true /\
    w' = log (CallPredictProba [high_risk_employee])
           (log (CallPredict [high_risk_employee]) w).
Proof.
  py_unfold. unfold hasattr_predict_proba.
  destruct (predict (pipeline (globals w))) as [f|] eqn:Hf; [|discriminate].
  destruct (f [high_risk_employee]) as [e|[|pred rest]] eqn:Hdf; simpl;
    try discriminate.
  destruct (predict_proba (pipeline (globals w))) as [g|] eqn:Hg;
    [|discriminate].
  destruct (g [high_risk_employee]) as [e|[|row rows]] eqn:Hdg; simpl;
    try discriminate.
  destruct (scalar_int pred) as [e|c] eqn:Hint; simpl; [discriminate|].
  destruct (row_tolist_error (pipeline (globals w))) as [e|] eqn:Htl; simpl;
    [discriminate|].
  rewrite Hg. intros H. injection H as <- <-.
  exists f, pred, rest, g, row, rows, c. auto 9.
Qed.

Lemma test_prediction_ok (w w' : World) (body : TestBody) :
  test_prediction w = (Ok body, w') ->
  model_loaded (globals w) = true /\
  ((exists r, test_body w = (inr r, w') /\ body = r) \/
   (exists e, test_body w = (inl e, w') /\
              body = TestError (exc_str e) (exc_tb e))).
Proof.
  unfold test_prediction.
  destruct (model_loaded (globals w)); simpl; [|discriminate].
  destruct (test_body w) as [[e|r] w1]; intros H; injection H as <- <-;
    (split; [reflexivity|]).
  - right. now exists e.
  - left. now exists r.
Qed.

(** X8. A report of [/test-prediction] (a body without "error") holds:
    the literal high-risk record as test data, [int] of the first class
    [predict] returned for that record, the first row [predict_proba]
    returned (a row that has [.tolist()]), [str(type(pipeline))], and
    [has_predict_proba] equal to true, always: a predictor without
    [predict_proba] never gets a report.  Both predictor methods have been
    called once, [predict] first. *)
Theorem test_report_content (w w' : World) (td : pydict) (c : Z)
        (row : list float) (ty : string) (hp : bool) :
  test_prediction w = (Ok (TestReport td c row ty hp), w') ->
  td = high_risk_employee /\
  hp = true /\
  ty = cls_repr (pipeline (globals w)) /\
  (exists f pred rest g rows,
      predict (pipeline (globals w)) = Some f /\
      f [high_risk_employee] = inr (pred :: rest) /\
      scalar_int pred = inr c /\
      predict_proba (pipeline (globals w)) = Some g /\
      g [high_risk_employee] = inr (row :: rows) /\
      row_tolist_error (pipeline (globals w)) = None) /\
  calls w' = CallPredictProba [high_risk_employee]
               :: CallPredict [high_risk_employee] :: calls w.
Proof.
  intros H. apply test_prediction_ok in H.
  destruct H as [_ [(r & Hb & Hr)|(e & _ & Hr)]]; [|discriminate Hr].
  subst r. apply test_body_ok in Hb.
  destruct Hb as (f & pred & rest & g & row' & rows & c' & Hf & Hdf & Hg
                  & Hdg & Hint & Htl & Hbody & ->).
  injection Hbody as -> -> -> -> ->.
  repeat split. exists f, pred, rest, g, rows. auto 7.
Qed.

Lemma test_report_content_witness :
  let w := loaded (const_pipeline [1] [[0.2; 0.8]%float]) in
  let w' := log (CallPredictProba [high_risk_employee])
              (log (CallPredict [high_risk_employee]) w) in
  test_prediction w =
    (Ok (TestReport high_risk_employee 1 [0.2; 0.8]%float
           "<class 'sklearn.pipeline.Pipeline'>" true), w') /\
  calls w' = [ CallPredictProba [high_risk_employee];
               CallPredict [high_risk_employee] ].
Proof.
  intros w w'. split; [reflexivity|].
  exact (proj2 (proj2 (proj2 (proj2
           (test_report_content w w' high_risk_employee 1 [0.2; 0.8]%float
              "<class 'sklearn.pipeline.Pipeline'>" true eq_refl))))).
Defined.

(** X9. [/test-prediction] and [/predict] agree on the high-risk
    sample: when the first reports class [c] and probabilities [row], a
    [/predict] request whose fields are those of the sample succeeds, with
    label "Yes" exactly when [c = 1] and with the probability taken from
    [row] (entry 1 if there are two or more, else the only entry, else the
    default 0.5). *)
Theorem test_report_agrees_with_predict (data : EmployeeInput)
        (w w1 : World) (td : pydict) (c : Z) (row : list float)
        (ty : string) (hp : bool) :
  dict data = high_risk_employee ->
  test_prediction w = (Ok (TestReport td c row ty hp), w1) ->
  exists r w2,
    predict_attrition data w = (Ok r, w2) /\
    (prediction r = "Yes" <-> c = 1) /\
    probability r = match row with
                    | _ :: p1 :: _ => p1
                    | [p0] => p0
                    | [] => 0.5%float
                    end /\
    confidence r = confidence_level (probability r).
Proof.
  intros Hdata H. apply test_prediction_ok in H.
  destruct H as [Hl [(r0 & Hb & Hr)|(e & _ & Hr)]]; [|discriminate Hr].
  subst r0. apply test_body_ok in Hb.
  destruct Hb as (f & pred & rest & g & row' & rows & c' & Hf & Hdf & Hg
                  & Hdg & Hint & _ & Hbody & _).
  injection Hbody as _ -> -> _ _.
  rewrite (predict_attrition_loaded data w Hl).
  py_unfold. simpl. rewrite Hdata, Hf, Hdf. simpl. rewrite Hg, Hdg. simpl.
  destruct row' as [|p0 [|p1 more]]; simpl; rewrite Hint;
    do 2 eexists; (split; [reflexivity|]); simpl;
    (split; [|split; reflexivity]);
    (destruct (Z.eqb_spec c' 1) as [->|Hne];
     [split; reflexivity | split; [discriminate | intros Hc; now elim Hne]]).
Qed.

Lemma test_report_agrees_with_predict_witness :
  let w := loaded (const_pipeline [1] [[0.2; 0.8]%float]) in
  exists r w2,
    predict_attrition demo_input w = (Ok r, w2) /\
    (prediction r = "Yes" <-> 1 = 1) /\
    probability r = 0.8%float /\
    confidence r = confidence_level (probability r).
Proof.
  intros w.
  exact (test_report_agrees_with_predict demo_input w
           (log (CallPredictProba [high_risk_employee])
              (log (CallPredict [high_risk_employee]) w))
           high_risk_employee 1 [0.2; 0.8]%float
           "<class 'sklearn.pipeline.Pipeline'>" true eq_refl eq_refl).
Defined.

(** The converse fails: without [predict_proba], [/predict] answers with
    the default while [/test-prediction] has nothing to report. *)
Example predict_succeeds_where_test_reports_error :
  let w := loaded (no_proba_pipeline [1]) in
  fst (predict_attrition demo_input w) =
    Ok {| prediction := "Yes"; probability := 0.5%float;
          confidence := "Low" |} /\
  fst (test_prediction w) =
    Ok (TestError "'LinearSVC' object has no attribute 'predict_proba'"
          "<traceback object>").
Proof. split; reflexivity. Qed.

(** * The record store service of [test.py] *)

Module Store.

(** ** Data *)

(** The JSON values of an employee row. *)
Inductive sbval : Type :=
| SStr (s : string)
| SInt (z : Z)
| SFloat (f : float)
| SBool (b : bool).

Definition row := list (string * sbval).

(** The two queries the service builds:
    [table(t).insert(data)] and [table(t).select(columns)]. *)
Inductive query : Type :=
| Insert (table : string) (data : row)
| Select (table : string) (columns : string).

(** The Supabase client: [.execute()] sends a query to the remote store
    and returns [response.data] or raises.  [DB] is the remote state, about
    which the service knows nothing. *)
Record Client (DB : Type) : Type := mkClient {
  execute : query -> DB -> result (list row) * DB
}.
Arguments execute {DB} _ _ _.

(** The remote state and the queries sent so far, most recent first. *)
Record StoreWorld (DB : Type) : Type := mkStoreWorld {
  remote : DB;
  sent : list query
}.
Arguments remote {DB} _.
Arguments sent {DB} _.
Arguments mkStoreWorld {DB} _ _.

(** The query parameters of [POST /add_employee]. *)
Record NewEmployee : Type := mkNewEmployee {
  name : string;
  age : Z;
  gender : string;
  department : string;
  job_role : string;
  years_at_company : Z;
  monthly_income : float;
  overtime : bool;
  job_satisfaction : Z;
  perfomance_rating : Z;
  attrition_pred : string;
  prediction_prob : float
}.

(** The body [{"success": True, "data": response.data}]. *)
Record StoreResponse : Type := mkStoreResponse {
  success : bool;
  data : list row
}.

Section Service.

Context {DB : Type} (supabase : Client DB).

(** [query.execute()], recorded. *)
Definition run (q : query) (w : StoreWorld DB)
  : result (list row) * StoreWorld DB :=
  let '(r, db) := execute supabase q (remote w) in
  (r, {| remote := db; sent := q :: sent w |}).

(** The [data] dictionary of [add_employee]. *)
Definition employee_row (e : NewEmployee) : row :=
  [ ("name", SStr (name e));
    ("age", SInt (age e));
    ("gender", SStr (gender e));
    ("department", SStr (department e));
    ("job_role", SStr (job_role e));
    ("years_at_company", SInt (years_at_company e));
    ("monthly_income", SFloat (monthly_income e));
    ("overtime", SBool (overtime e));
    ("job_satisfaction", SInt (job_satisfaction e));
    ("perfomance_rating", SInt (perfomance_rating e));
    ("attrition_pred", SStr (attrition_pred e));
    ("prediction_prob", SFloat (prediction_prob e)) ].

(** [POST /add_employee] *)
Definition add_employee (e : NewEmployee) (w : StoreWorld DB)
  : outcome StoreResponse * StoreWorld DB :=
  let data := employee_row e in
  match run (Insert "employees" data) w with
  | (inr d, w') => (Ok {| success := true; data := d |}, w')
  | (inl exc, w') => (HTTPException 400 (exc_str exc), w')
  end.

(** [GET /employees] *)
Definition get_employees (w : StoreWorld DB)
  : outcome StoreResponse * StoreWorld DB :=
  match run (Select "employees" "*") w with
  | (inr d, w') => (Ok {| success := true; data := d |}, w')
  | (inl exc, w') => (HTTPException 400 (exc_str exc), w')
  end.

(** [GET /] *)
Definition root (w : StoreWorld DB) : outcome string * StoreWorld DB :=
  (Ok "FastAPI + Supabase (Employees) connected 🚀", w).

Inductive request : Type :=
| GET_root
| POST_add_employee (e : NewEmployee)
| GET_employees.

Inductive response : Type :=
| RootR (r : outcome string)
| AddR (r : outcome StoreResponse)
| ListR (r : outcome StoreResponse).

Definition app (rq : request) (w : StoreWorld DB)
  : response * StoreWorld DB :=
  match rq with
  | GET_root => let '(r, w') := root w in (RootR r, w')
  | POST_add_employee e => let '(r, w') := add_employee e w in (AddR r, w')
  | GET_employees => let '(r, w') := get_employees w in (ListR r, w')
  end.

Fixpoint serve (rqs : list request) (w : StoreWorld DB)
  : list response * StoreWorld DB :=
  match rqs with
  | [] => ([], w)
  | rq :: rest =>
      let '(r, w') := app rq w in
      let '(rs, w'') := serve rest w' in
      (r :: rs, w'')
  end.

(** The query a request stands for, if any. *)
Definition query_of (rq : request) : list query :=
  match rq with
  | GET_root => []
  | POST_add_employee e => [Insert "employees" (employee_row e)]
  | GET_employees => [Select "employees" "*"]
  end.

End Service.

(** ** A client for the examples: rows kept in a list *)

(** Inserts append and answer with the inserted row; selects answer with
    all rows; any table other than "employees" is unknown. *)
Definition list_client : Client (list row) :=
  {| execute := fun q db =>
       match q with
       | Insert t r =>
           if String.eqb t "employees" then (inr [r], (db ++ [r])%list)
           else (inl (RuntimeError "relation does not exist"), db)
       | Select t _ =>
           if String.eqb t "employees" then (inr db, db)
           else (inl (RuntimeError "relation does not exist"), db)
       end |}.

(** A client whose every request fails. *)
Definition offline_client : Client unit :=
  {| execute := fun _ db => (inl (RuntimeError "connection refused"), db) |}.

Definition alice : NewEmployee :=
  {| name := "Alice"; age := 31; gender := "Female";
     department := "Sales"; job_role := "Sales Executive";
     years_at_company := 4; monthly_income := 5200.0; overtime := true;
     job_satisfaction := 3; perfomance_rating := 3;
     attrition_pred := "No"; prediction_prob := 0.2 |}.

(** ** Properties of the service *)

Lemma app_sent {DB} (supabase : Client DB) (rq : request)
      (w : StoreWorld DB) :
  sent (snd (app supabase rq w)) = (query_of rq ++ sent w)%list.
Proof.
  destruct rq as [|e|]; simpl; try reflexivity.
  - unfold add_employee, run.
    destruct (execute supabase _ (remote w)) as [[exc|d] db]; reflexivity.
  - unfold get_employees, run.
    destruct (execute supabase _ (remote w)) as [[exc|d] db]; reflexivity.
Qed.

(** X10. The service is a pass-through with no retry and no batching:
    after any sequence of requests the queries sent to the store are, in
    request order, one insert into "employees" per [/add_employee] (the row
    built from the twelve parameters) and one select of all columns per
    [/employees], whether or not earlier queries failed; [/] sends
    nothing. *)
Theorem serve_sends_one_query_per_request {DB} (supabase : Client DB)
        (rqs : list request) (w : StoreWorld DB) :
  sent (snd (serve supabase rqs w)) =
  (rev (flat_map query_of rqs) ++ sent w)%list.
Proof.
  revert w. induction rqs as [|rq rest IH]; intros w; simpl; [reflexivity|].
  pose proof (app_sent supabase rq w) as Happ.
  destruct (app supabase rq w) as [r w1]. simpl in Happ.
  specialize (IH w1). destruct (serve supabase rest w1) as [rs w2].
  simpl in *. rewrite IH, Happ.
  rewrite rev_app_distr, <- app_assoc.
  destruct rq; reflexivity.
Qed.

(** X11. What a store route answers is decided by the one query it
    sends: if the store returns data, the answer is a success body with
    exactly that data; if the store raises, the answer is HTTP 400 with the
    exception's message.  The remote state is left as the store left it. *)
Theorem store_route_answer {DB} (supabase : Client DB) (rq : request)
        (q : query) (w : StoreWorld DB) :
  query_of rq = [q] ->
  snd (app supabase rq w) =
    {| remote := snd (execute supabase q (remote w));
       sent := q :: sent w |} /\
  exists o,
    (fst (app supabase rq w) = AddR o \/ fst (app supabase rq w) = ListR o) /\
    match fst (execute supabase q (remote w)) with
    | inr d => o = Ok {| success := true; data := d |}
    | inl exc => o = HTTPException 400 (exc_str exc)
    end.
Proof.
  destruct rq as [|e|]; simpl; intros Hq; [discriminate| |];
    injection Hq as <-.
  - unfold add_employee, run.
    destruct (execute supabase _ (remote w)) as [[exc|d] db]; simpl;
      (split; [reflexivity|]); eexists; split; eauto.
  - unfold get_employees, run.
    destruct (execute supabase _ (remote w)) as [[exc|d] db]; simpl;
      (split; [reflexivity|]); eexists; split; eauto.
Qed.

Lemma store_route_answer_witness :
  snd (app offline_client (POST_add_employee alice)
         {| remote := tt; sent := [] |}) =
    {| remote := tt; sent := [Insert "employees" (employee_row alice)] |} /\
  exists o,
    (fst (app offline_client (POST_add_employee alice)
            {| remote := tt; sent := [] |}) = AddR o \/
     fst (app offline_client (POST_add_employee alice)
            {| remote := tt; sent := [] |}) = ListR o) /\
    o = HTTPException 400 "connection refused".
Proof.
  exact (store_route_answer offline_client (POST_add_employee alice)
           (Insert "employees" (employee_row alice))
           {| remote := tt; sent := [] |} eq_refl).
Defined.

(** With the list-backed client: an added row comes back from
    [/employees]; a failing store gives 400 on both routes. *)
Example add_then_list :
  fst (serve list_client [POST_add_employee alice; GET_employees]
         {| remote := []; sent := [] |}) =
  [ AddR (Ok {| success := true; data := [employee_row alice] |});
    ListR (Ok {| success := true; data := [employee_row alice] |}) ].
Proof. reflexivity. Qed.

Example offline_run :
  fst (serve offline_client [GET_root; GET_employees]
         {| remote := tt; sent := [] |}) =
  [ RootR (Ok "FastAPI + Supabase (Employees) connected 🚀");
    ListR (HTTPException 400 "connection refused") ].
Proof. reflexivity. Qed.

End Store.

(** * The launcher of [start_servers.py]

    Embedded: the command [start_server] builds, and the monitoring loop
    of [main] as a function of what [poll] answers in each second.  The
    [print] calls, the sleeps and the [KeyboardInterrupt] handler are left
    out. *)

From Stdlib Require Import Ascii DecimalString.

Module Launcher.

(** ** The uvicorn command of [start_server] *)

(** [str(port)] *)
Definition str (port : Z) : string :=
  NilZero.string_of_int (Z.to_int port).

(** [script_name.replace('.py', ':app')]: every occurrence, scanning from
    the left, occurrences not overlapping. *)
Fixpoint replace_py (script_name : string) : string :=
  match script_name with
  | String "." (String "p" (String "y" rest)) => ":app" ++ replace_py rest
  | String c rest => String c (replace_py rest)
  | EmptyString => EmptyString
  end.

(** The argument list handed to [subprocess.Popen]. *)
Definition command (executable script_name : string) (port : Z)
  : list string :=
  [ executable; "-m"; "uvicorn"; replace_py script_name;
    "--host"; "0.0.0.0"; "--port"; str port; "--reload" ].

(** [start_server]: the process, or [None] when [Popen] raises. *)
Definition start_server (Popen : list string -> result Z)
           (executable script_name : string) (port : Z) : option Z :=
  match Popen (command executable script_name port) with
  | inr process => Some process
  | inl _ => None
  end.

(** A string without the character ".". *)
Fixpoint no_dot (s : string) : bool :=
  match s with
  | EmptyString => true
  | String c rest => negb (Ascii.eqb c ".") && no_dot rest
  end.

(** ** The monitoring loop of [main] *)

(** An element of [processes]: the description and the [Popen] object,
    which compares by identity and is named here by its pid. *)
Definition entry : Type := (string * Z)%type.

(** Tuple equality. *)
Definition entry_eqb (a b : entry) : bool :=
  String.eqb (fst a) (fst b) && Z.eqb (snd a) (snd b).

(** [processes.remove(x)]: drops the first element equal to [x].  (The
    loop only removes an element it has just read from the list, so the
    [ValueError] of an absent element cannot arise.) *)
Fixpoint list_remove (x : entry) (l : list entry) : list entry :=
  match l with
  | [] => []
  | y :: rest => if entry_eqb y x then rest else y :: list_remove x rest
  end.

(** [for name, process in processes: if process.poll() is not None:
    processes.remove((name, process))].  A Python [for] over a list reads
    position [i] of the list as it is at that moment and stops when [i]
    reaches its length.  [stopped] gives the answers of [poll] during the
    pass; [fuel] bounds the number of iterations. *)
Fixpoint for_loop (fuel : nat) (stopped : Z -> bool) (i : nat)
         (processes : list entry) : list entry :=
  match fuel with
  | O => processes
  | S fuel' =>
      match nth_error processes i with
      | None => processes
      | Some (name, process) =>
          if stopped process
          then for_loop fuel' stopped (S i)
                 (list_remove (name, process) processes)
          else for_loop fuel' stopped (S i) processes
      end
  end.

(** One pass of the loop; the list never grows, so its length is enough
    fuel. *)
Definition monitor_pass (stopped : Z -> bool) (processes : list entry)
  : list entry :=
  for_loop (List.length processes) stopped 0 processes.

(** [while True: sleep(1); <pass>; if not processes: break], watched for
    [ticks] seconds from second [t] on: the second at which the loop
    breaks, if it does.  [poll t] gives the answers of [poll] during the
    pass of second [t]. *)
Fixpoint watch (ticks : nat) (poll : nat -> Z -> bool) (t : nat)
         (processes : list entry) : option nat :=
  match ticks with
  | O => None
  | S ticks' =>
      match monitor_pass (poll t) processes with
      | [] => Some t
      | remaining => watch ticks' poll (S t) remaining
      end
  end.

(** What a pass amounts to when no entry occurs twice: after removing a
    stopped entry, the entry that followed it is not examined. *)
Fixpoint skipping_pass (stopped : Z -> bool) (l : list entry) : list entry :=
  match l with
  | [] => []
  | x :: rest =>
      if stopped (snd x)
      then match rest with
           | [] => []
           | y :: rest' => y :: skipping_pass stopped rest'
           end
      else x :: skipping_pass stopped rest
  end.

Definition running (stopped : Z -> bool) (x : entry) : bool :=
  negb (stopped (snd x)).

(** The two entries [main] builds, with pids [p] and [q]. *)
Definition both_servers (p q : Z) : list entry :=
  [ ("ML Prediction API", p); ("Supabase API", q) ].

(** ** Properties of the command *)

Lemma replace_py_other (c : ascii) (rest : string) :
  c <> "."%char ->
  replace_py (String c rest) = String c (replace_py rest).
Proof.
  intros H. destruct c as [[] [] [] [] [] [] [] []]; try reflexivity.
  now elim H.
Qed.

Lemma replace_py_no_dot (s : string) : no_dot s = true -> replace_py s = s.
Proof.
  induction s as [|c rest IH]; [reflexivity|]. simpl no_dot.
  intros H. apply andb_true_iff in H. destruct H as [Hc Hrest].
  rewrite replace_py_other.
  - now rewrite IH.
  - intros ->. discriminate Hc.
Qed.

Lemma replace_py_extension (base : string) :
  no_dot base = true -> replace_py (base ++ ".py") = base ++ ":app".
Proof.
  induction base as [|c rest IH]; [reflexivity|].
  simpl no_dot. intros H. apply andb_true_iff in H. destruct H as [Hc Hrest].
  change ((String c rest) ++ ".py") with (String c (rest ++ ".py")).
  rewrite replace_py_other.
  - now rewrite IH.
  - intros ->. discriminate Hc.
Qed.

(** X12. For a script name [base ++ ".py"] whose base has no ".", the
    application handed to uvicorn is [base ++ ":app"], and the port is
    passed in decimal after "--port"; a name without "." is passed
    unchanged. *)
Theorem uvicorn_target (executable base : string) (port : Z) :
  no_dot base = true ->
  command executable (base ++ ".py") port =
    [ executable; "-m"; "uvicorn"; base ++ ":app";
      "--host"; "0.0.0.0"; "--port"; str port; "--reload" ] /\
  command executable base port =
    [ executable; "-m"; "uvicorn"; base;
      "--host"; "0.0.0.0"; "--port"; str port; "--reload" ].
Proof.
  intros H. unfold command.
  now rewrite (replace_py_extension base H), (replace_py_no_dot base H).
Qed.

Lemma uvicorn_target_witness :
  command "/usr/bin/python3" "main.py" 8000 =
    [ "/usr/bin/python3"; "-m"; "uvicorn"; "main:app";
      "--host"; "0.0.0.0"; "--port"; "8000"; "--reload" ].
Proof.
  exact (proj1 (uvicorn_target "/usr/bin/python3" "main" 8000 eq_refl)).
Defined.

(** Every ".py" is replaced, not only the extension. *)
Example replace_py_inner_occurrence :
  replace_py "my.pyapp.py" = "my:appapp:app".
Proof. reflexivity. Qed.

(** ** Properties of the monitoring loop *)

Lemma entry_eqb_eq a b : entry_eqb a b = true <-> a = b.
Proof.
  destruct a as [n p], b as [m q]. unfold entry_eqb. simpl.
  rewrite andb_true_iff, String.eqb_eq, Z.eqb_eq. split.
  - intros [-> ->]. reflexivity.
  - intros H. injection H as -> ->. auto.
Qed.

Lemma list_remove_middle x pre suf :
  ~ In x pre -> list_remove x (pre ++ x :: suf) = (pre ++ suf)%list.
Proof.
  induction pre as [|y pre IH]; simpl; intros Hn.
  - now rewrite (proj2 (entry_eqb_eq x x) eq_refl).
  - destruct (entry_eqb y x) eqn:E.
    + apply entry_eqb_eq in E. subst. elim Hn. now left.
    + f_equal. apply IH. intros H. apply Hn. now right.
Qed.

Lemma app_cons_shift {A} (pre : list A) (x : A) (rest : list A) :
  (pre ++ x :: rest = (pre ++ [x]) ++ rest)%list.
Proof. now rewrite <- app_assoc. Qed.

Lemma for_loop_skipping stopped fuel : forall pre suf,
  NoDup (pre ++ suf) -> (List.length suf <= fuel)%nat ->
  for_loop fuel stopped (List.length pre) (pre ++ suf) =
  (pre ++ skipping_pass stopped suf)%list.
Proof.
  induction fuel as [|fuel IH]; intros pre suf Hnd Hlen.
  - destruct suf; [reflexivity | simpl in Hlen; lia].
  - cbn [for_loop]. destruct suf as [|[name process] rest].
    + cbn [skipping_pass]. rewrite !app_nil_r.
      now rewrite (proj2 (nth_error_None pre (List.length pre)) (le_n _)).
    + rewrite nth_error_app2, Nat.sub_diag by lia.
      cbn [nth_error skipping_pass snd]. cbn [List.length] in Hlen.
      destruct (stopped process).
      * rewrite list_remove_middle
          by (apply NoDup_remove_2 in Hnd; intros H; apply Hnd, in_or_app; now left).
        apply NoDup_remove_1 in Hnd.
        destruct rest as [|y rest'].
        -- rewrite !app_nil_r. destruct fuel; [reflexivity|]. cbn [for_loop].
           now rewrite (proj2 (nth_error_None pre (S (List.length pre))))
             by lia.
        -- rewrite (app_cons_shift pre y rest') in Hnd.
           rewrite (app_cons_shift pre y rest').
           replace (S (List.length pre)) with (List.length (pre ++ [y]))
             by (rewrite length_app; simpl; lia).
           rewrite IH; [now rewrite <- !app_assoc | exact Hnd
                       | cbn [List.length] in Hlen; lia].
      * rewrite (app_cons_shift pre (name, process) rest) in Hnd.
        rewrite (app_cons_shift pre (name, process) rest).
        replace (S (List.length pre))
          with (List.length (pre ++ [(name, process)]))
          by (rewrite length_app; simpl; lia).
        rewrite IH; [now rewrite <- !app_assoc | exact Hnd | lia].
Qed.

(** Induction on lists, two elements at a time. *)
Lemma list_ind2 (P : list entry -> Prop) :
  P [] -> (forall x, P [x]) ->
  (forall x y l, P l -> P (y :: l) -> P (x :: y :: l)) ->
  forall l, P l.
Proof.
  intros H0 H1 H2 l.
  assert (H : P l /\ forall x, P (x :: l)).
  { induction l as [|y l [IH1 IH2]]; [split; auto|].
    split; [apply IH2|]. intros x. apply H2; auto. }
  apply H.
Qed.

Lemma skipping_pass_cons2 stopped x y l :
  skipping_pass stopped (x :: y :: l) =
  if stopped (snd x) then y :: skipping_pass stopped l
  else x :: skipping_pass stopped (y :: l).
Proof. reflexivity. Qed.

Lemma filter_running_cons stopped x l :
  filter (running stopped) (x :: l) =
  if stopped (snd x) then filter (running stopped) l
  else x :: filter (running stopped) l.
Proof. unfold running at 1. simpl. now destruct (stopped (snd x)). Qed.

Lemma skipping_keeps_running stopped l :
  filter (running stopped) (skipping_pass stopped l) = filter (running stopped) l.
Proof.
  induction l as [|x|x y l IH1 IH2] using list_ind2.
  - reflexivity.
  - rewrite filter_running_cons. cbn [skipping_pass].
    destruct (stopped (snd x)) eqn:E; [reflexivity|].
    now rewrite filter_running_cons, E.
  - rewrite skipping_pass_cons2, (filter_running_cons stopped x (y :: l)).
    destruct (stopped (snd x)) eqn:E.
    + rewrite !(filter_running_cons stopped y). now rewrite IH1.
    + rewrite filter_running_cons, E. now rewrite IH2.
Qed.

Lemma skipping_incl stopped l x : In x (skipping_pass stopped l) -> In x l.
Proof.
  revert x. induction l as [|a|a b l IH1 IH2] using list_ind2; intros x.
  - auto.
  - simpl. destruct (stopped (snd a)); simpl; auto.
  - cbn [skipping_pass]. destruct (stopped (snd a)).
    + intros [<-|H]; [right; left; reflexivity|]. right. right. now apply IH1.
    + intros [<-|H]; [left; reflexivity|]. right. now apply IH2.
Qed.

Lemma skipping_length stopped l :
  (List.length (skipping_pass stopped l) <= List.length l)%nat /\
  (existsb (fun x => stopped (snd x)) l = true ->
   List.length (skipping_pass stopped l) < List.length l)%nat.
Proof.
  induction l as [|a|a b l IH1 IH2] using list_ind2.
  - simpl. split; [lia|discriminate].
  - simpl. destruct (stopped (snd a)); simpl; split; try lia; discriminate.
  - rewrite skipping_pass_cons2.
    change (existsb (fun x => stopped (snd x)) (a :: b :: l))
      with (stopped (snd a) || existsb (fun x => stopped (snd x)) (b :: l)).
    destruct IH1 as [IH1 _]. destruct IH2 as [IH2 IH2'].
    destruct (stopped (snd a)); cbn [List.length orb] in *.
    + split; [lia|]. intros _. lia.
    + split; [lia|]. intros H. apply IH2' in H. lia.
Qed.

Lemma skipping_all_stopped stopped l :
  forallb (fun x => stopped (snd x)) l = true ->
  List.length (skipping_pass stopped l) = Nat.div2 (List.length l).
Proof.
  induction l as [|a|a b l IH1 IH2] using list_ind2.
  - reflexivity.
  - simpl. now intros ->%andb_true_iff%proj1.
  - cbn [forallb]. intros H. apply andb_true_iff in H. destruct H as [Ha H].
    apply andb_true_iff in H. destruct H as [Hb H].
    rewrite skipping_pass_cons2, Ha. cbn [List.length Nat.div2].
    now rewrite IH1.
Qed.

Lemma skipping_NoDup stopped l : NoDup l -> NoDup (skipping_pass stopped l).
Proof.
  induction l as [|a|a b l IH1 IH2] using list_ind2; intros H.
  - constructor.
  - cbn [skipping_pass]. destruct (stopped (snd a)); [constructor | exact H].
  - rewrite skipping_pass_cons2.
    pose proof (NoDup_cons_iff a (b :: l)) as [Ha _]. specialize (Ha H).
    destruct Ha as [Hna Hbl].
    pose proof (NoDup_cons_iff b l) as [Hb _]. specialize (Hb Hbl).
    destruct Hb as [Hnb Hl].
    destruct (stopped (snd a)).
    + constructor; [|now apply IH1].
      intros Hin. apply Hnb. now apply skipping_incl in Hin.
    + constructor; [|now apply IH2].
      intros Hin. apply Hna. now apply skipping_incl in Hin.
Qed.

Lemma monitor_pass_eq_skipping (stopped : Z -> bool)
      (processes : list entry) :
  NoDup processes ->
  monitor_pass stopped processes = skipping_pass stopped processes.
Proof.
  intros Hnd.
  exact (for_loop_skipping stopped _ [] processes Hnd (le_n _)).
Qed.

(** X13. One pass of the monitoring loop over a list without repeated
    entries does what [skipping_pass] does: a running entry is kept; a
    stopped entry is removed and the entry after it is skipped without
    being polled.  The loop ends within as many iterations as the list is
    long: more fuel changes nothing. *)
Theorem monitor_pass_skips (stopped : Z -> bool) (processes : list entry)
        (fuel : nat) :
  NoDup processes ->
  (List.length processes <= fuel)%nat ->
  for_loop fuel stopped 0 processes = skipping_pass stopped processes /\
  monitor_pass stopped processes = skipping_pass stopped processes.
Proof.
  intros Hnd Hfuel. split.
  - exact (for_loop_skipping stopped fuel [] processes Hnd Hfuel).
  - exact (for_loop_skipping stopped _ [] processes Hnd (le_n _)).
Qed.

Lemma monitor_pass_skips_witness :
  for_loop 5 (fun pid => Z.eqb pid 11 || Z.eqb pid 12) 0
    [("a", 11); ("b", 12); ("c", 13)] = [("b", 12); ("c", 13)] /\
  monitor_pass (fun pid => Z.eqb pid 11 || Z.eqb pid 12)
    [("a", 11); ("b", 12); ("c", 13)] = [("b", 12); ("c", 13)].
Proof.
  apply (monitor_pass_skips (fun pid => Z.eqb pid 11 || Z.eqb pid 12)
           [("a", 11); ("b", 12); ("c", 13)] 5).
  - repeat constructor; simpl; intuition discriminate.
  - simpl. lia.
Defined.

(** X14. A pass never drops a running process and never invents one:
    the running entries of the result are those of the list, in the same
    order, and every remaining entry was in the list.  If some entry has
    stopped, the pass removes at least one entry. *)
Theorem monitor_pass_keeps_running (stopped : Z -> bool)
        (processes : list entry) :
  NoDup processes ->
  filter (running stopped) (monitor_pass stopped processes) =
    filter (running stopped) processes /\
  (forall x, In x (monitor_pass stopped processes) -> In x processes) /\
  (existsb (fun x => stopped (snd x)) processes = true ->
   List.length (monitor_pass stopped processes) < List.length processes)%nat.
Proof.
  intros Hnd. rewrite (monitor_pass_eq_skipping stopped processes Hnd).
  split; [apply skipping_keeps_running|].
  split; [intros x; apply skipping_incl|].
  apply skipping_length.
Qed.

Lemma monitor_pass_keeps_running_witness :
  filter (running (fun pid => Z.eqb pid 11))
    (monitor_pass (fun pid => Z.eqb pid 11) (both_servers 11 12)) =
  [("Supabase API", 12)].
Proof.
  apply (proj1 (monitor_pass_keeps_running (fun pid => Z.eqb pid 11)
                  (both_servers 11 12)
                  ltac:(repeat constructor; simpl; intuition discriminate))).
Defined.

(** X15. When every listed process has stopped, one pass still leaves
    half of the entries (rounded down): the skipped ones. *)
Theorem monitor_pass_halves_dead_list (stopped : Z -> bool)
        (processes : list entry) :
  NoDup processes ->
  forallb (fun x => stopped (snd x)) processes = true ->
  List.length (monitor_pass stopped processes) =
    Nat.div2 (List.length processes).
Proof.
  intros Hnd Hall. rewrite (monitor_pass_eq_skipping stopped processes Hnd).
  now apply skipping_all_stopped.
Qed.

Lemma monitor_pass_halves_dead_list_witness :
  List.length (monitor_pass (fun _ => true) (both_servers 11 12)) = 1%nat.
Proof.
  apply (monitor_pass_halves_dead_list (fun _ => true) (both_servers 11 12)).
  - repeat constructor; simpl; intuition discriminate.
  - reflexivity.
Defined.

(** X16. The two servers of [main]: in a second in which the ML server
    is found stopped, its entry is removed and the Supabase entry is not
    polled at all; so when both have stopped, the loop breaks (reporting
    that all servers have stopped) only in the following second. *)
Theorem both_servers_dead_break_late (poll : nat -> Z -> bool) (t ticks : nat)
        (p q : Z) :
  poll t p = true -> poll (S t) q = true ->
  monitor_pass (poll t) (both_servers p q) = [("Supabase API", q)] /\
  watch (S (S ticks)) poll t (both_servers p q) = Some (S t).
Proof.
  intros Hp Hq'.
  assert (Hnd : NoDup (both_servers p q)).
  { unfold both_servers. constructor.
    - simpl. intros [H|[]]. discriminate H.
    - constructor; [simpl; tauto | constructor]. }
  assert (Hnd1 : NoDup [("Supabase API", q) : entry]).
  { constructor; [simpl; tauto | constructor]. }
  assert (Hpass : monitor_pass (poll t) (both_servers p q) =
                  [("Supabase API", q)]).
  { rewrite (monitor_pass_eq_skipping _ _ Hnd). unfold both_servers.
    cbn [skipping_pass snd]. now rewrite Hp. }
  split; [exact Hpass|].
  cbn [watch]. rewrite Hpass.
  rewrite (monitor_pass_eq_skipping _ _ Hnd1).
  cbn [skipping_pass snd]. now rewrite Hq'.
Qed.

Lemma both_servers_dead_break_late_witness :
  monitor_pass (fun _ => true) (both_servers 11 12) = [("Supabase API", 12)] /\
  watch 2 (fun _ _ => true) 0 (both_servers 11 12) = Some 1%nat.
Proof.
  exact (both_servers_dead_break_late (fun _ _ => true) 0 0 11 12
           eq_refl eq_refl).
Defined.

Lemma watch_alive (ticks : nat) (poll : nat -> Z -> bool) (x : entry) :
  (forall t, poll t (snd x) = false) ->
  forall t processes,
    NoDup processes -> In x processes -> watch ticks poll t processes = None.
Proof.
  intros Halive. induction ticks as [|ticks IH]; intros t processes Hnd Hin;
    [reflexivity|].
  cbn [watch].
  assert (Hpass : monitor_pass (poll t) processes =
                  skipping_pass (poll t) processes).
  { now apply monitor_pass_eq_skipping. }
  assert (Hin' : In x (monitor_pass (poll t) processes)).
  { rewrite Hpass.
    assert (Hf : In x (filter (running (poll t))
                         (skipping_pass (poll t) processes))).
    { rewrite skipping_keeps_running. apply filter_In. split; [exact Hin|].
      unfold running. now rewrite Halive. }
    apply filter_In in Hf. apply Hf. }
  assert (Hnd' : NoDup (monitor_pass (poll t) processes)).
  { rewrite Hpass. now apply skipping_NoDup. }
  destruct (monitor_pass (poll t) processes) as [|y rest] eqn:E;
    [destruct Hin'|].
  now apply IH.
Qed.

(** X17. The launcher does not break out of its loop while a listed
    server is alive: if some entry never reports an exit code, no pass
    empties the list, however long the loop is watched and whatever the
    other processes do. *)
Theorem watch_never_breaks_while_alive (ticks t : nat)
        (poll : nat -> Z -> bool) (processes : list entry) (x : entry) :
  NoDup processes ->
  In x processes ->
  (forall t', poll t' (snd x) = false) ->
  watch ticks poll t processes = None.
Proof.
  intros Hnd Hin Halive. now apply (watch_alive ticks poll x Halive).
Qed.

Lemma watch_never_breaks_while_alive_witness :
  watch 10 (fun _ pid => Z.eqb pid 11) 0 (both_servers 11 12) = None.
Proof.
  apply (watch_never_breaks_while_alive 10 0 (fun _ pid => Z.eqb pid 11)
           (both_servers 11 12) ("Supabase API", 12)).
  - repeat constructor; simpl; intuition discriminate.
  - right. left. reflexivity.
  - intros t'. reflexivity.
Defined.

End Launcher.
